(** * Quiz_WebApp: the quiz window, the submission route and its scoring

    A shallow embedding of the parts of the repository that gate and score
    a quiz submission:

      - [src/utils/calculateResult.js]  ([calculateResults], [arraysEqual]);
      - [src/models/models.js], the class router: [GET /:classId/quizzes/:quizId],
        [POST /:classId/quizzes/:quizId/responses] and
        [GET /:classId/quizzes/:quizId/results/:studentId];
      - the schemas at the head of [src/models/models.js];
      - [src/middleware/auth.js] ([authenticateToken]) and the mount of the
        class router behind it;
      - of the class router also the roster ([POST /:classId/add-student],
        [POST /join], [DELETE /:classId/remove-student]), the listings
        ([GET /:classId/students], [GET /:classId/quizzes],
        [GET /:classId/quizzes/:quizId/results]) and [DELETE /:classId].

    Conventions of the embedding.
      - A [Date] is its time value, milliseconds since the epoch, as a [Z];
        the host's local time zone is a fixed offset [LocalTZA] (milliseconds).
        The clock reads and the [start_date] of a stored quiz are valid
        dates and its [duration] is integral; the [endDate] a route computes
        may be out of range and is clipped ([Date.TimeClip]).  Time values
        are integers below 2^53, on which the arithmetic of a Number is that
        of [Z].
      - Request bodies are JSON values ([JsVal]); numbers are integral and
        the keys of an object are distinct.
      - The document store is four collections kept as lists in insertion
        order; [findOne] answers the oldest match, [save] appends.  An id is
        the string of the 24 hexadecimal digits of an ObjectId: the [_id] of
        a stored document, a path parameter and the [student_id] of a body are
        values of type [Id] and taken to be such strings ([isObjectId]); what
        a batch of responses holds is any JSON value, and is cast to ObjectId
        by the schema when the response is saved ([castObjectId],
        [save_response]).
      - Every [await] of a handler is one node of a [Prog]; the code between
        two awaits runs without interruption, as on the Node event loop.  The
        roster routes and the listings are given by what one request, handled
        from start to end, answers and leaves in the store.
      - [jwt.verify] is a parameter of the middleware. *)

From Stdlib Require Import ZArith List String Ascii Bool Lia DecimalString Permutation.
Import ListNotations.
Local Open Scope string_scope.
Local Open Scope Z_scope.

Set Implicit Arguments.
Set Warnings "-register-all".

(** ** JSON values, as [express.json()] hands them to a handler *)

Inductive JsVal : Type :=
| JUndefined
| JNull
| JBool (b : bool)
| JNum (n : Z)
| JStr (s : string)
| JArr (l : list JsVal)
| JObj (kvs : list (string * JsVal)).

Definition Id := string.

(** [!v] is [negb (truthy v)]. *)
Definition truthy (v : JsVal) : bool :=
  match v with
  | JUndefined | JNull => false
  | JBool b => b
  | JNum n => negb (n =? 0)
  | JStr s => negb (s =? "")%string
  | JArr _ | JObj _ => true
  end.

Definition isArray (v : JsVal) : bool :=
  match v with JArr _ => true | _ => false end.

Fixpoint assoc (k : string) (kvs : list (string * JsVal)) : JsVal :=
  match kvs with
  | [] => JUndefined
  | (k', v) :: rest => if (k =? k')%string then v else assoc k rest
  end.

(** [v.k] for one of the two keys a response carries.  Reading a property
    of [undefined] or [null] raises a TypeError ([None]); arrays, strings,
    numbers and booleans have no such property. *)
Definition get_prop (v : JsVal) (k : string) : option JsVal :=
  match v with
  | JUndefined | JNull => None
  | JObj kvs => Some (assoc k kvs)
  | _ => Some JUndefined
  end.

(** [s === v] for a string [s]. *)
Definition strictEqStr (s : string) (v : JsVal) : bool :=
  match v with
  | JStr s' => (s =? s')%string
  | _ => false
  end.

Fixpoint chars (s : string) : list JsVal :=
  match s with
  | EmptyString => []
  | String c rest => JStr (String c EmptyString) :: chars rest
  end.

(** What [for (const x of v)] iterates over; [None] when [v] is not
    iterable (a TypeError). *)
Definition iterate (v : JsVal) : option (list JsVal) :=
  match v with
  | JArr l => Some l
  | JStr s => Some (chars s)
  | _ => None
  end.

(** ** Dates *)

Definition msPerSecond : Z := 1000.
Definition msPerMinute : Z := 60000.
Definition msPerHour : Z := 3600000.
Definition msPerDay : Z := 86400000.

Module Date.

(** [d.getMinutes()]: the minute of the hour, in local time. *)
Definition getMinutes (LocalTZA : Z) (t : Z) : Z :=
  ((t + LocalTZA) / msPerMinute) mod 60.

(** The largest time value of a valid [Date], 8.64e15 milliseconds. *)
Definition maxTime : Z := 8640000000000000.

(** [TimeClip]: a time value outside the range is no time value; the
    [Date] is then an Invalid Date ([None]). *)
Definition TimeClip (t : Z) : option Z :=
  if Z.abs t <=? maxTime then Some t else None.

(** [d.setMinutes(m)]: the local day, hour, second and millisecond of
    [t] are kept and the minutes are replaced by [m], which carries into
    the hours when it is outside 0..59; the result is clipped. *)
Definition setMinutes (LocalTZA : Z) (t : Z) (m : Z) : option Z :=
  let lt := t + LocalTZA in
  let day := lt / msPerDay in
  let hour := (lt / msPerHour) mod 24 in
  let sec := (lt / msPerSecond) mod 60 in
  let ms := lt mod msPerSecond in
  TimeClip (day * msPerDay + hour * msPerHour + m * msPerMinute
              + sec * msPerSecond + ms - LocalTZA).

(** [a > b] for a valid date [a]: every comparison with an Invalid Date is
    false. *)
Definition gt (a : Z) (b : option Z) : bool :=
  match b with
  | Some t => a >? t
  | None => false
  end.

End Date.

(** ** Schemas *)

Record Option_ : Type := mkOption
  { option_id : Id; option_text : string; is_correct : bool }.

Record Question : Type := mkQuestion
  { question_id_ : Id; question_text : string;
    options : list Option_; is_multiple_choice : bool }.

Record Quiz : Type := mkQuiz
  { quiz_id_ : Id; quiz_name : string; class_id : Id;
    start_date : Z; duration : Z; questions : list Question }.

Record Class : Type := mkClass
  { class_id_ : Id; class_name : string; teacher_id : Id;
    students : list Id; class_quizzes : list Id }.

(** One entry of [allResponses], as the handler pushed it; the stored
    document holds the ObjectIds it is cast to. *)
Record ResponseEntry : Type := mkEntry
  { entry_question_id : JsVal; entry_selected_options : JsVal }.

Record StudentResponse : Type := mkStudentResponse
  { response_student_id : Id; response_quiz_id : Id;
    responses : list ResponseEntry }.

Record StudentResult : Type := mkStudentResult
  { result_student_id : Id; result_quiz_id : Id;
    score : nat; submitted_at : Z; out_of : nat }.

(** ** The document store *)

Record World : Type := mkWorld
  { Classes : list Class;
    Quizzes : list Quiz;
    StudentResponses : list StudentResponse;
    StudentResults : list StudentResult }.

Inductive DbOp : Type -> Type :=
| ClassFindById (id : Id) : DbOp (option Class)
| QuizFindById (id : Id) : DbOp (option Quiz)
| ResponseFindOne (student quiz : Id) : DbOp (option StudentResponse)
| ResponseSave (d : StudentResponse) : DbOp unit
| ResultFindOne (student quiz : Id) : DbOp (option StudentResult)
| ResultSave (d : StudentResult) : DbOp unit.

Definition response_for (student quiz : Id) (d : StudentResponse) : bool :=
  (response_student_id d =? student)%string && (response_quiz_id d =? quiz)%string.

Definition result_for (student quiz : Id) (d : StudentResult) : bool :=
  (result_student_id d =? student)%string && (result_quiz_id d =? quiz)%string.

(** [ResponseSave] is handed a document that passed the casts of its
    schema ([save_response]). *)
Definition exec_op {X : Type} (op : DbOp X) (w : World) : X * World :=
  match op in DbOp X return X * World with
  | ClassFindById id =>
      (find (fun c => (class_id_ c =? id)%string) (Classes w), w)
  | QuizFindById id =>
      (find (fun q => (quiz_id_ q =? id)%string) (Quizzes w), w)
  | ResponseFindOne s q =>
      (find (response_for s q) (StudentResponses w), w)
  | ResponseSave d =>
      (tt, mkWorld (Classes w) (Quizzes w) (StudentResponses w ++ [d])
                   (StudentResults w))
  | ResultFindOne s q =>
      (find (result_for s q) (StudentResults w), w)
  | ResultSave d =>
      (tt, mkWorld (Classes w) (Quizzes w) (StudentResponses w)
                   (StudentResults w ++ [d]))
  end.

(** ** Asynchronous handlers *)

Inductive Prog (A : Type) : Type :=
| Ret (a : A)
| Throw
| Await (X : Type) (op : DbOp X) (k : X -> Prog A).

Arguments Ret {A} a.
Arguments Throw {A}.
Arguments Await {A X} op k.

Fixpoint bind {A B : Type} (p : Prog A) (f : A -> Prog B) : Prog B :=
  match p with
  | Ret a => f a
  | Throw => Throw
  | Await op k => Await op (fun x => bind (k x) f)
  end.

(** [try { p } catch (error) { handler }] *)
Fixpoint try_catch {A : Type} (p : Prog A) (handler : A) : Prog A :=
  match p with
  | Ret a => Ret a
  | Throw => Ret handler
  | Await op k => Await op (fun x => try_catch (k x) handler)
  end.

Definition await {X : Type} (op : DbOp X) : Prog X := Await op Ret.

Definition orThrow {A : Type} (o : option A) : Prog A :=
  match o with Some a => Ret a | None => Throw end.

Declare Scope prog_scope.
Delimit Scope prog_scope with prog.
Notation "x <- c ;; k" := (bind c (fun x => k))
  (at level 61, c at next level, right associativity) : prog_scope.
Notation "c ;;; k" := (bind c (fun _ => k))
  (at level 61, right associativity) : prog_scope.

(** A request handled from start to end with nothing in between: the
    result ([None] for an exception nobody caught) and the store after. *)
Fixpoint run {A : Type} (p : Prog A) (w : World) : option A * World :=
  match p with
  | Ret a => (Some a, w)
  | Throw => (None, w)
  | Await op k => let (x, w') := exec_op op w in run (k x) w'
  end.

(** Requests in flight together.  One step resumes one request at its
    pending await and runs it up to the next one. *)
Definition resume {A : Type} (p : Prog A) (w : World) : Prog A * World :=
  match p with
  | Await op k => let (x, w') := exec_op op w in (k x, w')
  | _ => (p, w)
  end.

Fixpoint set_nth {A : Type} (i : nat) (x : A) (l : list A) : list A :=
  match l, i with
  | [], _ => []
  | _ :: t, O => x :: t
  | h :: t, S i' => h :: set_nth i' x t
  end.

(** [interleave sched pool w]: the requests of [pool] are resumed in the
    order [sched] names them. *)
Fixpoint interleave {A : Type} (sched : list nat) (pool : list (Prog A))
    (w : World) : list (Prog A) * World :=
  match sched with
  | [] => (pool, w)
  | i :: rest =>
      match nth_error pool i with
      | Some p => let (p', w') := resume p w in
                  interleave rest (set_nth i p' pool) w'
      | None => interleave rest pool w
      end
  end.

(** ** Scoring: [src/utils/calculateResult.js] *)

(** [v.length] and [v[i]] for the second argument of [arraysEqual]. *)
Definition js_length (v : JsVal) : option JsVal :=
  match v with
  | JUndefined | JNull => None
  | JArr l => Some (JNum (Z.of_nat (List.length l)))
  | JStr s => Some (JNum (Z.of_nat (String.length s)))
  | JObj kvs => Some (assoc "length" kvs)
  | _ => Some JUndefined
  end.

Definition index_key (i : nat) : string :=
  NilZero.string_of_uint (Nat.to_uint i).

Definition js_index (v : JsVal) (i : nat) : JsVal :=
  match v with
  | JArr l => nth i l JUndefined
  | JStr s => nth i (chars s) JUndefined
  | JObj kvs => assoc (index_key i) kvs
  | _ => JUndefined
  end.

(** The [for] loop of [arraysEqual], entered at index [i] with [todo]
    rounds left. *)
Fixpoint arraysEqual_loop (arr1 : list string) (arr2 : JsVal)
    (i todo : nat) : bool :=
  match todo with
  | O => true
  | S todo' =>
      if negb (strictEqStr (nth i arr1 "") (js_index arr2 i)) then false
      else arraysEqual_loop arr1 arr2 (S i) todo'
  end.

(** [None]: reading [arr2.length] raised. *)
Definition arraysEqual (arr1 : list string) (arr2 : JsVal) : option bool :=
  match js_length arr2 with
  | None => None
  | Some len =>
      match len with
      | JNum n =>
          if negb (Z.of_nat (List.length arr1) =? n) then Some false
          else Some (arraysEqual_loop arr1 arr2 0 (List.length arr1))
      | _ => Some false
      end
  end.

Record CorrectResponse : Type := mkCorrect
  { correct_question_id : string; correct_selected_options : list string }.

(** [correctResponses.find(response => response.question_id ===
    submittedResponse.question_id)]; the callback, and with it the read of
    [submittedResponse.question_id], runs once per element. *)
Definition find_correct (correctResponses : list CorrectResponse)
    (submittedResponse : JsVal) : option (option CorrectResponse) :=
  match correctResponses with
  | [] => Some None
  | _ :: _ =>
      match get_prop submittedResponse "question_id" with
      | None => None
      | Some qid =>
          Some (find (fun response => strictEqStr (correct_question_id response) qid)
                     correctResponses)
      end
  end.

(** The body of the [forEach] callback: the score after one submitted
    response, [None] when it raised. *)
Definition score_step (correctResponses : list CorrectResponse)
    (score : nat) (submittedResponse : JsVal) : option nat :=
  match find_correct correctResponses submittedResponse with
  | None => None
  | Some None => Some score
  | Some (Some correctResponse) =>
      match get_prop submittedResponse "selected_options" with
      | None => None
      | Some selected =>
          match arraysEqual (correct_selected_options correctResponse) selected with
          | None => None
          | Some isCorrect => Some (if isCorrect then S score else score)
          end
      end
  end.

Fixpoint score_forEach (correctResponses : list CorrectResponse)
    (score : nat) (submitted : list JsVal) : option nat :=
  match submitted with
  | [] => Some score
  | r :: rest =>
      match score_step correctResponses score r with
      | None => None
      | Some score' => score_forEach correctResponses score' rest
      end
  end.

(** [submittedResponses.forEach] exists on arrays only. *)
Definition score_of (correctResponses : list CorrectResponse)
    (submittedResponses : JsVal) : option nat :=
  match submittedResponses with
  | JArr l => score_forEach correctResponses 0%nat l
  | _ => None
  end.

(** [now] is the clock read behind the schema default of [submitted_at]. *)
Definition calculateResults (now : Z) (studentId quizId : Id)
    (correctResponses : list CorrectResponse) (submittedResponses : JsVal)
    (numberOfQuestions : nat) : Prog nat :=
  (score <- orThrow (score_of correctResponses submittedResponses) ;;
   await (ResultSave (mkStudentResult studentId quizId score now numberOfQuestions)) ;;;
   Ret score)%prog.

(** ** The class router: [src/models/models.js] *)

(** [req.user], the decoded token the authentication middleware leaves. *)
Record Decoded : Type := mkDecoded { id : Id; role : string }.

Inductive Body : Type :=
| Error (error : string)
| QuizDetail (quiz : Quiz)
| Submitted (message : string) (score out_of : nat)
| Result (score out_of : nat).

Record Response : Type := mkResponse { status : Z; body : Body }.

(** The clock reads of one request and the zone of the host: [new Date()]
    for [endDate], [new Date()] for [currentDate], and the read behind
    [submitted_at]. *)
Record Clock : Type := mkClock
  { LocalTZA : Z; endDate_now : Z; currentDate_now : Z; submitted_now : Z }.

(** A clock on which no millisecond passes during the request. *)
Definition instant (tza now : Z) : Clock := mkClock tza now now now.

Definition OnlyUsers : Response :=
  mkResponse 403 (Error "Forbidden - Only authenticated users can access this endpoint").
Definition OnlyStudents : Response :=
  mkResponse 403 (Error "Forbidden - Only authenticated students can access this endpoint").
Definition ClassNotFound : Response := mkResponse 404 (Error "Class not found").
Definition NotAuthorized : Response :=
  mkResponse 403 (Error "User is not authorized to access this quiz").
Definition QuizNotFound : Response := mkResponse 404 (Error "Quiz not found").
Definition QuizEnded : Response :=
  mkResponse 403 (Error "Forbidden - Quiz has already passed").
Definition QuizNotStarted : Response :=
  mkResponse 403 (Error "Forbidden - Quiz has not started").
Definition AlreadySubmitted : Response :=
  mkResponse 403 (Error "Forbidden - Student has already taken the Quiz !").
Definition MalformedResponse : Response :=
  mkResponse 400 (Error "Invalid format for response").
Definition ResultNotFound : Response :=
  mkResponse 404 (Error "Student result not found").
Definition InternalFailure : Response :=
  mkResponse 500 (Error "Internal Server Error").

(** The outcome of the two window tests of a call site. *)
Inductive WindowState : Type := NOT_STARTED | ACTIVE | ENDED.

(** Lines 1168-1181, the window tests of [GET /:classId/quizzes/:quizId];
    [quiz] was tested before them, so [!quiz] is false in both. *)
Definition viewWindow (clk : Clock) (quiz : Quiz) : WindowState :=
  let endDate :=
    Date.setMinutes (LocalTZA clk) (endDate_now clk)
      (Date.getMinutes (LocalTZA clk) (start_date quiz) + duration quiz) in
  let currentDate := currentDate_now clk in
  if (currentDate >? start_date quiz) && Date.gt currentDate endDate then ENDED
  else if currentDate <? start_date quiz then NOT_STARTED
  else ACTIVE.

(** Lines 1378-1389, the window tests of
    [POST /:classId/quizzes/:quizId/responses]; they run after
    [quiz.start_date] was read, so [!quiz] is false in both. *)
Definition submitWindow (clk : Clock) (quiz : Quiz) : WindowState :=
  let endDate :=
    Date.setMinutes (LocalTZA clk) (endDate_now clk)
      (Date.getMinutes (LocalTZA clk) (start_date quiz) + duration quiz) in
  let currentDate := currentDate_now clk in
  if (currentDate >? start_date quiz) && Date.gt currentDate endDate then ENDED
  else if currentDate <? start_date quiz then NOT_STARTED
  else ACTIVE.

Definition isUser (decoded : Decoded) : bool :=
  (role decoded =? "teacher")%string || (role decoded =? "student")%string.

Definition includes (x : Id) (l : list Id) : bool :=
  existsb (fun y => (y =? x)%string) l.

(** [GET /:classId/quizzes/:quizId] *)
Definition get_quiz (clk : Clock) (user : option Decoded)
    (classId quizId : Id) : Prog Response :=
  try_catch
    (match user with
     | None => Ret OnlyUsers
     | Some decoded =>
       if negb (isUser decoded) then Ret OnlyUsers else
       (myClass <- await (ClassFindById classId) ;;
        match myClass with
        | None => Ret ClassNotFound
        | Some myClass =>
          let isTeacherOrStudentInClass :=
            (teacher_id myClass =? id decoded)%string
            || includes (id decoded) (students myClass) in
          if negb isTeacherOrStudentInClass then Ret NotAuthorized else
          (quiz <- await (QuizFindById quizId) ;;
           match quiz with
           | None => Ret QuizNotFound
           | Some quiz =>
             if (role decoded =? "student")%string then
               match viewWindow clk quiz with
               | ENDED => Ret QuizEnded
               | NOT_STARTED => Ret QuizNotStarted
               | ACTIVE =>
                 (isStudentTakeExam <- await (ResponseFindOne (id decoded) quizId) ;;
                  match isStudentTakeExam with
                  | Some _ => Ret AlreadySubmitted
                  | None => Ret (mkResponse 200 (QuizDetail quiz))
                  end)
               end
             else Ret (mkResponse 200 (QuizDetail quiz))
           end)
        end)
     end)%prog
    InternalFailure.

(** The request body of a submission: [{ student_id, responses }]. *)
Record SubmitBody : Type := mkSubmitBody
  { student_id : Id; body_responses : JsVal }.

Inductive Validation : Type :=
| Raised
| Invalid
| Valid (allResponses : list ResponseEntry).

(** The [for ... of] loop that fills [allResponses]. *)
Fixpoint validate_loop (todo : list JsVal) (allResponses : list ResponseEntry)
    : Validation :=
  match todo with
  | [] => Valid allResponses
  | response :: rest =>
      match get_prop response "question_id",
            get_prop response "selected_options" with
      | Some question_id, Some selected_options =>
          if negb (truthy question_id) || negb (truthy selected_options)
             || negb (isArray selected_options)
          then Invalid
          else validate_loop rest
                 (allResponses ++ [mkEntry question_id selected_options])
      | _, _ => Raised
      end
  end.

Definition validate (responses : JsVal) : Validation :=
  match iterate responses with
  | None => Raised
  | Some todo => validate_loop todo []
  end.

(** *** The schema of a response

    [new StudentResponse({...})] casts every path to the type its schema
    gives it, and [save()] rejects, before anything is written, when a cast
    failed.  [question_id] and every element of [selected_options] are cast
    to ObjectId. *)

Definition is_hex (c : ascii) : bool :=
  let n := nat_of_ascii c in
  ((48 <=? n) && (n <=? 57) || (97 <=? n) && (n <=? 102)
   || (65 <=? n) && (n <=? 70))%nat.

Fixpoint all_hex (s : string) : bool :=
  match s with
  | EmptyString => true
  | String c rest => is_hex c && all_hex rest
  end.

(** The strings [new ObjectId(s)] takes: 24 hexadecimal digits, of either
    case. *)
Definition isObjectId (s : string) : bool :=
  (String.length s =? 24)%nat && all_hex s.

(** Whether [v.toString()] is such a string.  An array of one element
    prints as its element, a longer one with commas, an empty one and [null]
    as the empty string, an object as [[object Object]], and a number never
    as 24 hexadecimal digits. *)
Fixpoint renders_ObjectId (v : JsVal) : bool :=
  match v with
  | JStr s => isObjectId s
  | JArr (e :: nil) => renders_ObjectId e
  | _ => false
  end.

(** The cast of a JSON value to ObjectId succeeds: [null] is kept, an
    object is cast by its truthy [_id], anything else by what it prints as. *)
Definition castObjectId (v : JsVal) : bool :=
  match v with
  | JUndefined | JNull => true
  | JObj kvs =>
      let _id := assoc "_id" kvs in
      if truthy _id then renders_ObjectId _id else false
  | _ => renders_ObjectId v
  end.

(** The cast of [selected_options], an array of ObjectId; what is not an
    array is cast as the array of itself. *)
Definition castable_options (v : JsVal) : bool :=
  match v with
  | JArr l => forallb castObjectId l
  | _ => castObjectId v
  end.

Definition castable_entry (e : ResponseEntry) : bool :=
  castObjectId (entry_question_id e) && castable_options (entry_selected_options e).

(** [studentResponseinfo.save()] *)
Definition save_response (d : StudentResponse) : Prog unit :=
  if forallb castable_entry (responses d) then await (ResponseSave d) else Throw.

Definition correct_options (question : Question) : list string :=
  map option_id (filter is_correct (options question)).

Definition correctResponse_of (question : Question) : CorrectResponse :=
  mkCorrect (question_id_ question) (correct_options question).

(** [POST /:classId/quizzes/:quizId/responses] *)
Definition post_responses (clk : Clock) (user : option Decoded)
    (classId quizId : Id) (req_body : SubmitBody) : Prog Response :=
  try_catch
    (match user with
     | None => Ret OnlyStudents
     | Some decoded =>
       if negb (role decoded =? "student")%string then Ret OnlyStudents else
       (quiz <- await (QuizFindById quizId) ;;
        (* [quiz.start_date.getMinutes()] is evaluated before [if(!quiz)] *)
        quiz <- orThrow quiz ;;
        match submitWindow clk quiz with
        | ENDED => Ret QuizEnded
        | NOT_STARTED => Ret QuizNotStarted
        | ACTIVE =>
          (isStudentTakeExam <-
             await (ResponseFindOne (student_id req_body) quizId) ;;
           match isStudentTakeExam with
           | Some _ => Ret AlreadySubmitted
           | None =>
             match validate (body_responses req_body) with
             | Raised => Throw
             | Invalid => Ret MalformedResponse
             | Valid allResponses =>
               let correctResponses := map correctResponse_of (questions quiz) in
               (save_response
                  (mkStudentResponse (student_id req_body) quizId allResponses) ;;;
                let numberOfQuestions := List.length (questions quiz) in
                score <- calculateResults (submitted_now clk) (student_id req_body)
                           quizId correctResponses (body_responses req_body)
                           numberOfQuestions ;;
                Ret (mkResponse 200
                       (Submitted "Student responses stored successfully"
                                  score numberOfQuestions)))
             end
           end)
        end)
     end)%prog
    InternalFailure.

(** [GET /:classId/quizzes/:quizId/results/:studentId] *)
Definition get_result (user : option Decoded) (classId quizId studentId : Id)
    : Prog Response :=
  try_catch
    (studentResult <- await (ResultFindOne studentId quizId) ;;
     match studentResult with
     | None => Ret ResultNotFound
     | Some studentResult =>
         Ret (mkResponse 200 (Result (score studentResult) (out_of studentResult)))
     end)%prog
    InternalFailure.

(** ** What [res.json] sends *)

(** A document is sent with every path of its schema and its [_id];
    a date is kept as its time value. *)
Definition option_json (o : Option_) : JsVal :=
  JObj [("option_text", JStr (option_text o));
        ("is_correct", JBool (is_correct o));
        ("_id", JStr (option_id o))].

Definition question_json (q : Question) : JsVal :=
  JObj [("question_text", JStr (question_text q));
        ("options", JArr (map option_json (options q)));
        ("is_multiple_choice", JBool (is_multiple_choice q));
        ("_id", JStr (question_id_ q))].

Definition quiz_json (q : Quiz) : JsVal :=
  JObj [("_id", JStr (quiz_id_ q));
        ("quiz_name", JStr (quiz_name q));
        ("class_id", JStr (class_id q));
        ("start_date", JNum (start_date q));
        ("duration", JNum (duration q));
        ("questions", JArr (map question_json (questions q)))].

Definition body_json (b : Body) : JsVal :=
  match b with
  | Error e => JObj [("error", JStr e)]
  | QuizDetail q => JObj [("quiz", quiz_json q)]
  | Submitted m s o =>
      JObj [("message", JStr m); ("score", JNum (Z.of_nat s));
            ("out_of", JNum (Z.of_nat o))]
  | Result s o =>
      JObj [("score", JNum (Z.of_nat s)); ("out_of", JNum (Z.of_nat o))]
  end.

(** Does the key [k] occur anywhere inside [v]? *)
Fixpoint has_key (k : string) (v : JsVal) : bool :=
  match v with
  | JArr l => existsb (has_key k) l
  | JObj kvs =>
      existsb (fun kv => let '(k', v') := kv in (k' =? k)%string || has_key k v') kvs
  | _ => false
  end.

(** ** A running example

    One class of two students and one quiz of two questions that starts on
    2024-01-20 at 10:00:00 UTC and lasts 30 minutes. *)
Module Example.

(** The ids of the example, each the 24 hexadecimal digits of an ObjectId. *)
Definition alice_id : Id := "65a31695c007a2f91fc20e01".
Definition bob_id : Id := "65a31695c007a2f91fc20e02".
Definition carol_id : Id := "65a31695c007a2f91fc20e03".
Definition mallory_id : Id := "65a31695c007a2f91fc20e04".
Definition class1 : Id := "65a31695c007a2f91fc200c1".
Definition class2 : Id := "65a31695c007a2f91fc200c2".
Definition quiz1 : Id := "65a31695c007a2f91fc20a01".
Definition quiz2 : Id := "65a31695c007a2f91fc20a02".
Definition o1 : Id := "65a31695c007a2f91fc20d01".
Definition o2 : Id := "65a31695c007a2f91fc20d02".
Definition o3 : Id := "65a31695c007a2f91fc20d03".
Definition o4 : Id := "65a31695c007a2f91fc20d04".
Definition o5 : Id := "65a31695c007a2f91fc20d05".
Definition q1_id : Id := "65a31695c007a2f91fc20b01".
Definition q2_id : Id := "65a31695c007a2f91fc20b02".
Definition teacher1 : Id := "65a31695c007a2f91fc20f01".
Definition teacher2 : Id := "65a31695c007a2f91fc20f02".

Definition start : Z := 1705744800000.

Definition q1 : Question :=
  mkQuestion q1_id "2 + 2 ?"
    [mkOption o1 "4" true; mkOption o2 "5" false] false.

Definition q2 : Question :=
  mkQuestion q2_id "primes ?"
    [mkOption o3 "2" true; mkOption o4 "4" false; mkOption o5 "3" true] true.

Definition quiz : Quiz := mkQuiz quiz1 "Math Quiz" class1 start 30 [q1; q2].

Definition world : World :=
  mkWorld [mkClass class1 "Math" teacher1 [alice_id; bob_id] [quiz1]]
          [quiz] [] [].

Definition alice : option Decoded := Some (mkDecoded alice_id "student").
Definition bob : option Decoded := Some (mkDecoded bob_id "student").

Definition answer (question : string) (selected : list string) : JsVal :=
  JObj [("question_id", JStr question);
        ("selected_options", JArr (map JStr selected))].

(** Ten minutes into the window, on a host in UTC. *)
Definition during : Clock := instant 0 (start + 10 * msPerMinute).

(** Seventy minutes after the start, forty after the end. *)
Definition late : Clock := instant 0 (start + 70 * msPerMinute).


End Example.

(** ** The vocabulary of the statements *)

(** What [Quiz.findById], [Class.findById] and the two [findOne] answer on
    a store. *)
Definition quiz_in (w : World) (quizId : Id) : option Quiz :=
  find (fun q => (quiz_id_ q =? quizId)%string) (Quizzes w).

Definition class_in (w : World) (classId : Id) : option Class :=
  find (fun c => (class_id_ c =? classId)%string) (Classes w).

Definition attempt_in (w : World) (student quiz : Id) : option StudentResponse :=
  find (response_for student quiz) (StudentResponses w).

(** The store after a [save]. *)
Definition add_response (w : World) (d : StudentResponse) : World :=
  mkWorld (Classes w) (Quizzes w) (StudentResponses w ++ [d]) (StudentResults w).

Definition add_result (w : World) (d : StudentResult) : World :=
  mkWorld (Classes w) (Quizzes w) (StudentResponses w) (StudentResults w ++ [d]).

(** The [endDate] of both call sites. *)
Definition endDate_of (clk : Clock) (quiz : Quiz) : option Z :=
  Date.setMinutes (LocalTZA clk) (endDate_now clk)
    (Date.getMinutes (LocalTZA clk) (start_date quiz) + duration quiz).

(** The time value [setMinutes] computes for [endDate] before it clips it:
    the first clock read, moved by as many minutes as the minute of the hour
    of [start_date] plus [duration] is ahead of its own minute of the hour. *)
Definition raw_endDate (clk : Clock) (quiz : Quiz) : Z :=
  endDate_now clk
  + (Date.getMinutes (LocalTZA clk) (start_date quiz) + duration quiz
     - Date.getMinutes (LocalTZA clk) (endDate_now clk)) * msPerMinute.





(** A response the validation loop lets through. *)
Definition wellFormed (response : JsVal) : bool :=
  match get_prop response "question_id", get_prop response "selected_options" with
  | Some question_id, Some selected_options =>
      truthy question_id && isArray selected_options
  | _, _ => false
  end.

(** The entry the validation loop pushes for a response. *)
Definition prop_or_undefined (v : JsVal) (k : string) : JsVal :=
  match get_prop v k with Some x => x | None => JUndefined end.

Definition entry_of (response : JsVal) : ResponseEntry :=
  mkEntry (prop_or_undefined response "question_id")
          (prop_or_undefined response "selected_options").













(** The claim C6 as it is stated: the detail sent to a student carries no
    [is_correct] key. *)
Definition student_view_omits_flags : Prop :=
  forall clk decoded classId quizId w r,
    role decoded = "student" ->
    fst (run (get_quiz clk (Some decoded) classId quizId) w) = Some r ->
    status r = 200 ->
    has_key "is_correct" (body_json (body r)) = false.

Definition result_in (w : World) (student quiz : Id) : option StudentResult :=
  find (result_for student quiz) (StudentResults w).

(** One submission request. *)
Record Submission : Type := mkSubmission
  { sub_clock : Clock; sub_user : option Decoded;
    sub_classId : Id; sub_quizId : Id; sub_body : SubmitBody }.

Definition submit (s : Submission) : Prog Response :=
  post_responses (sub_clock s) (sub_user s) (sub_classId s) (sub_quizId s)
                 (sub_body s).

(** No student and quiz have two responses or two results. *)
Definition at_most_one_attempt (w : World) : Prop :=
  forall student quiz,
    (List.length (filter (response_for student quiz) (StudentResponses w)) <= 1)%nat /\
    (List.length (filter (result_for student quiz) (StudentResults w)) <= 1)%nat.

Definition no_attempts (w : World) : Prop :=
  StudentResponses w = [] /\ StudentResults w = [].

(** The claim C8 as it is stated: however the awaits of the submission
    requests in flight interleave, no pair gets a second response or a
    second result. *)
Definition one_attempt_under_interleaving : Prop :=
  forall sched subs w,
    no_attempts w ->
    at_most_one_attempt (snd (interleave sched (map submit subs) w)).

(** The requests handled one after the other, each from start to end. *)
Fixpoint serve_in_turn (subs : list Submission) (w : World) : World :=
  match subs with
  | [] => w
  | s :: rest => serve_in_turn rest (snd (run (submit s) w))
  end.

(** The pair a document is looked up by. *)
Definition response_key (d : StudentResponse) : Id * Id :=
  (response_student_id d, response_quiz_id d).

Definition result_key (d : StudentResult) : Id * Id :=
  (result_student_id d, result_quiz_id d).

(** The invariant of the store under requests served in turn: no pair has
    two responses, none has two results, and a result has its response. *)
Definition consistent (w : World) : Prop :=
  NoDup (map response_key (StudentResponses w)) /\
  NoDup (map result_key (StudentResults w)) /\
  incl (map result_key (StudentResults w)) (map response_key (StudentResponses w)).

(** ** Accounts and the authentication middleware: [src/middleware/auth.js] *)

Record Teacher : Type := mkTeacher
  { teacher_id_ : Id; teacher_username : string; teacher_password : string;
    teacher_full_name : string; teacher_email : string }.

Record Student : Type := mkStudent
  { student_id_ : Id; student_username : string; student_password : string;
    student_full_name : string; student_email : string }.

(** The store with its two collections of accounts. *)
Record Database : Type := mkDatabase
  { Teachers : list Teacher; Students : list Student; store : World }.

Definition teacher_in (db : Database) (i : Id) : option Teacher :=
  find (fun t => (teacher_id_ t =? i)%string) (Teachers db).

Definition student_in (db : Database) (i : Id) : option Student :=
  find (fun t => (student_id_ t =? i)%string) (Students db).

(** [s.split(' ')]: the pieces between the spaces, empty pieces kept. *)
Fixpoint split_space (s : string) : list string :=
  match s with
  | EmptyString => [EmptyString]
  | String c rest =>
      if Ascii.eqb c " " then EmptyString :: split_space rest
      else match split_space rest with
           | [] => [String c EmptyString]
           | word :: words => String c word :: words
           end
  end.

Fixpoint has_space (s : string) : bool :=
  match s with
  | EmptyString => false
  | String c rest => Ascii.eqb c " " || has_space rest
  end.

(** What [jwt.verify] does with a token: it returns the payload, raises a
    [JsonWebTokenError], or raises an error of another name (an expired
    token). *)
Inductive Verified : Type :=
| Payload (decoded : Decoded)
| JsonWebTokenError
| OtherError.

Definition TokenMissing : Response :=
  mkResponse 401 (Error "Authentication token missing").
Definition InvalidToken : Response := mkResponse 401 (Error "Invalid token").
Definition TokenExpiredOrInvalid : Response :=
  mkResponse 401 (Error "Token Expired or Invalid").
Definition UserNotFound : Response := mkResponse 404 (Error "User not found").

Section Middleware.

(** [jwt.verify(token, process.env.JWT_SECRET)]; the token is [None] when
    the header has no second piece. *)
Variable jwt_verify : option string -> Verified.

(** [authenticateToken]: the answer it sends, or the [req.user] it leaves
    for the route when it calls [next()]. *)
Definition authenticateToken (authorization : option string) (db : Database)
    : Response + Decoded :=
  match authorization with
  | None => inl TokenMissing
  | Some header =>
      if (header =? "")%string then inl TokenMissing else
      let token := nth_error (split_space header) 1 in
      match jwt_verify token with
      | JsonWebTokenError => inl InvalidToken
      | OtherError => inl TokenExpiredOrInvalid
      | Payload decoded =>
          let user :=
            if (role decoded =? "teacher")%string then
              match teacher_in db (id decoded) with Some _ => true | None => false end
            else if (role decoded =? "student")%string then
              match student_in db (id decoded) with Some _ => true | None => false end
            else false in
          if negb user then inl UserNotFound else inr decoded
      end
  end.

(** [app.use('/api/classes', auth, classesRouter)]: a route of the class
    router behind the middleware. *)
Definition behind_auth (authorization : option string)
    (route : option Decoded -> Prog Response) (db : Database)
    : option Response * Database :=
  match authenticateToken authorization db with
  | inl answer => (Some answer, db)
  | inr decoded =>
      let (answer, w) := run (route (Some decoded)) (store db) in
      (answer, mkDatabase (Teachers db) (Students db) w)
  end.

End Middleware.

(** ** The roster and the listings of the class router *)

(** What the routes below send: a status and a JSON body. *)
Record Reply : Type := mkReply { reply_status : Z; reply_body : JsVal }.

Definition reply_error (status : Z) (error : string) : Reply :=
  mkReply status (JObj [("error", JStr error)]).

Definition reply_message (message : string) : Reply :=
  mkReply 200 (JObj [("message", JStr message)]).

Definition with_students (c : Class) (l : list Id) : Class :=
  mkClass (class_id_ c) (class_name c) (teacher_id c) l (class_quizzes c).

(** [doc.save()] on a class that was found: the stored document of that
    [_id] gets the new content. *)
Fixpoint save_class (c : Class) (l : list Class) : list Class :=
  match l with
  | [] => []
  | c' :: rest =>
      if (class_id_ c' =? class_id_ c)%string then c :: rest
      else c' :: save_class c rest
  end.

(** [doc.deleteOne()] on a class that was found. *)
Fixpoint delete_class_doc (i : Id) (l : list Class) : list Class :=
  match l with
  | [] => []
  | c' :: rest =>
      if (class_id_ c' =? i)%string then rest else c' :: delete_class_doc i rest
  end.

Definition with_classes (w : World) (l : list Class) : World :=
  mkWorld l (Quizzes w) (StudentResponses w) (StudentResults w).

Definition with_store (db : Database) (w : World) : Database :=
  mkDatabase (Teachers db) (Students db) w.

(** [POST /:classId/add-student]; with no [req.user] the read of
    [decoded.role] raises. *)
Definition add_student (user : option Decoded) (classId studentId : Id)
    (db : Database) : Reply * Database :=
  match user with
  | None => (reply_error 500 "Internal Server Error", db)
  | Some decoded =>
    if negb (role decoded =? "teacher")%string
    then (reply_error 403 "User is not a teacher", db) else
    match class_in (store db) classId with
    | None => (reply_error 404 "Class not found", db)
    | Some existingClass =>
      let isTeacherOfClass := (teacher_id existingClass =? id decoded)%string in
      if negb isTeacherOfClass
      then (reply_error 403 "User is not the teacher of this class", db) else
      match student_in db studentId with
      | None => (reply_error 404 "Student not found", db)
      | Some student =>
        let existingClass :=
          with_students existingClass
            (students existingClass ++ [student_id_ student]) in
        (reply_message "Student added to the class successfully",
         with_store db
           (with_classes (store db) (save_class existingClass (Classes (store db)))))
      end
    end
  end.

(** [POST /join].  The class and the student are both looked up before the
    class is tested; [student._id] raises when the student is gone.  The
    [$addToSet] on [classes] names a path the student schema does not have
    and changes nothing. *)
Definition join (user : option Decoded) (classId : Id) (db : Database)
    : Reply * Database :=
  match user with
  | None => (reply_error 500 "Internal Server Error", db)
  | Some decoded =>
    if negb (role decoded =? "student")%string
    then (reply_error 403 "User is not a student", db) else
    let existingClass := class_in (store db) classId in
    let student := student_in db (id decoded) in
    match existingClass with
    | None => (reply_error 404 "Class not found", db)
    | Some existingClass =>
      match student with
      | None => (reply_error 500 "Internal Server Error", db)
      | Some student =>
        if negb (includes (student_id_ student) (students existingClass)) then
          let existingClass :=
            with_students existingClass
              (students existingClass ++ [student_id_ student]) in
          (reply_message "Student joined the class successfully",
           with_store db
             (with_classes (store db)
                (save_class existingClass (Classes (store db)))))
        else (reply_message "Student already in the class", db)
      end
    end
  end.

(** [array.indexOf(x)], [None] for -1. *)
Fixpoint indexOf (x : Id) (l : list Id) : option nat :=
  match l with
  | [] => None
  | y :: rest =>
      if (y =? x)%string then Some O
      else match indexOf x rest with Some i => Some (S i) | None => None end
  end.

(** [array.splice(i, 1)] *)
Fixpoint splice_one (i : nat) (l : list Id) : list Id :=
  match l, i with
  | [], _ => []
  | _ :: rest, O => rest
  | y :: rest, S i' => y :: splice_one i' rest
  end.

(** [DELETE /:classId/remove-student] *)
Definition remove_student (user : option Decoded) (classId studentId : Id)
    (w : World) : Reply * World :=
  match user with
  | None => (reply_error 500 "Internal Server Error", w)
  | Some decoded =>
    if negb (role decoded =? "teacher")%string
    then (reply_error 403 "User is not a teacher", w) else
    match class_in w classId with
    | None => (reply_error 404 "Class not found", w)
    | Some existingClass =>
      let isTeacherOfClass := (teacher_id existingClass =? id decoded)%string in
      if negb isTeacherOfClass
      then (reply_error 403 "User is not the teacher of this class", w) else
      match indexOf studentId (students existingClass) with
      | None => (reply_error 404 "Student not found in the class", w)
      | Some studentIndex =>
        let existingClass :=
          with_students existingClass
            (splice_one studentIndex (students existingClass)) in
        (reply_message "Student removed from the class successfully",
         with_classes w (save_class existingClass (Classes w)))
      end
    end
  end.

(** [DELETE /:classId] *)
Definition delete_class (user : option Decoded) (classId : Id) (w : World)
    : Reply * World :=
  match user with
  | None => (reply_error 500 "Internal Server Error", w)
  | Some decoded =>
    if negb (role decoded =? "teacher")%string
    then (reply_error 403 "User is not a teacher", w) else
    match class_in w classId with
    | None => (reply_error 404 "Class not found", w)
    | Some existingClass =>
      let isTeacherOfClass := (teacher_id existingClass =? id decoded)%string in
      if negb isTeacherOfClass
      then (reply_error 403 "User is not the teacher of this class", w) else
      (reply_message "Class deleted successfully",
       with_classes w (delete_class_doc (class_id_ existingClass) (Classes w)))
    end
  end.

(** One element of [formattedQuizzes]. *)
Definition formatted_quiz (quiz : Quiz) : JsVal :=
  JObj [("quiz_name", JStr (quiz_name quiz));
        ("quiz_id", JStr (quiz_id_ quiz));
        ("start_date", JNum (start_date quiz));
        ("duration", JNum (duration quiz))].

(** [GET /:classId/quizzes]; the route only reads. *)
Definition list_quizzes (user : option Decoded) (classId : Id) (w : World) : Reply :=
  match user with
  | None =>
      reply_error 403 "Forbidden - Only authenticated users can access this endpoint"
  | Some decoded =>
    if negb (isUser decoded)
    then reply_error 403 "Forbidden - Only authenticated users can access this endpoint"
    else
    match class_in w classId with
    | None => reply_error 404 "Class not found"
    | Some myClass =>
      let isTeacherOrStudentInClass :=
        (teacher_id myClass =? id decoded)%string
        || includes (id decoded) (students myClass) in
      if negb isTeacherOrStudentInClass
      then reply_error 403 "User is not authorized to access quizzes in this class"
      else
        let quizzes := filter (fun q => (class_id q =? classId)%string) (Quizzes w) in
        mkReply 200 (JObj [("quizzes", JArr (map formatted_quiz quizzes))])
    end
  end.

(** What the student list shows of one student. *)
Definition student_card (s : Student) : JsVal :=
  JObj [("id", JStr (student_id_ s));
        ("name", JStr (student_full_name s));
        ("email", JStr (student_email s));
        ("username", JStr (student_username s))].

(** [Promise.all(myClass.students.map(async ...))]: every student of the
    roster is looked up; reading [student._id] of one that is gone raises and
    the whole promise is rejected ([None]). *)
Fixpoint student_cards (db : Database) (roster : list Id) : option (list JsVal) :=
  match roster with
  | [] => Some []
  | studentId :: rest =>
      match student_in db studentId, student_cards db rest with
      | Some student, Some cards => Some (student_card student :: cards)
      | _, _ => None
      end
  end.

(** [GET /:classId/students]; the route only reads. *)
Definition list_students (user : option Decoded) (classId : Id) (db : Database)
    : Reply :=
  match user with
  | None =>
      reply_error 403 "Forbidden - Only authenticated users can access this endpoint"
  | Some decoded =>
    if negb (isUser decoded)
    then reply_error 403 "Forbidden - Only authenticated users can access this endpoint"
    else
    match class_in (store db) classId with
    | None => reply_error 404 "Class not found"
    | Some myClass =>
      match student_cards db (students myClass) with
      | None => reply_error 500 "Internal Server Error"
      | Some students => mkReply 200 (JObj [("students", JArr students)])
      end
    end
  end.





(** * Properties *)

(** Case analysis on whatever the goal still branches on. *)
Ltac break_matches :=
  repeat match goal with
         | |- context [match ?x with _ => _ end] => destruct x; simpl
         end.

(** ** Handlers run from start to end *)

Lemma run_bind {A B : Type} (p : Prog A) (f : A -> Prog B) (w : World) :
  run (bind p f) w =
  match run p w with
  | (Some a, w') => run (f a) w'
  | (None, w') => (None, w')
  end.
Proof.
  revert w; induction p as [a | | X op k IH]; intros w; simpl; auto.
  destruct (exec_op op w) as [x w']; apply IH.
Qed.

Lemma run_try_catch {A : Type} (p : Prog A) (handler : A) (w : World) :
  run (try_catch p handler) w =
  match run p w with
  | (Some a, w') => (Some a, w')
  | (None, w') => (Some handler, w')
  end.
Proof.
  revert w; induction p as [a | | X op k IH]; intros w; simpl; auto.
  destruct (exec_op op w) as [x w']; apply IH.
Qed.

(** Resuming a request at its pending await and then letting it finish is
    letting it finish. *)
Lemma run_resume {A : Type} (p : Prog A) (w : World) :
  run (fst (resume p w)) (snd (resume p w)) = run p w.
Proof.
  destruct p as [a | | X op k]; simpl; auto.
  destruct (exec_op op w) as [x w']; reflexivity.
Qed.

(** The submission route, unfolded once and for all. *)
Lemma post_responses_run clk decoded classId quizId req_body w :
  role decoded = "student" ->
  run (post_responses clk (Some decoded) classId quizId req_body) w =
  match quiz_in w quizId with
  | None => (Some InternalFailure, w)
  | Some quiz =>
    match submitWindow clk quiz with
    | ENDED => (Some QuizEnded, w)
    | NOT_STARTED => (Some QuizNotStarted, w)
    | ACTIVE =>
      match attempt_in w (student_id req_body) quizId with
      | Some _ => (Some AlreadySubmitted, w)
      | None =>
        match validate (body_responses req_body) with
        | Raised => (Some InternalFailure, w)
        | Invalid => (Some MalformedResponse, w)
        | Valid allResponses =>
          if negb (forallb castable_entry allResponses)
          then (Some InternalFailure, w) else
          let w1 := add_response w
                      (mkStudentResponse (student_id req_body) quizId allResponses) in
          match score_of (map correctResponse_of (questions quiz))
                         (body_responses req_body) with
          | None => (Some InternalFailure, w1)
          | Some score =>
              (Some (mkResponse 200
                       (Submitted "Student responses stored successfully" score
                                  (List.length (questions quiz)))),
               add_result w1
                 (mkStudentResult (student_id req_body) quizId score
                    (submitted_now clk) (List.length (questions quiz))))
          end
        end
      end
    end
  end.
Proof.
  intros Hrole. unfold post_responses, quiz_in, attempt_in.
  rewrite Hrole. cbn [String.eqb Ascii.eqb Bool.eqb negb].
  rewrite run_try_catch. simpl.
  destruct (find _ (Quizzes w)) as [quiz|]; simpl; [|reflexivity].
  destruct (submitWindow clk quiz); simpl; try reflexivity.
  destruct (find _ (StudentResponses w)); simpl; [reflexivity|].
  destruct (validate (body_responses req_body)) as [| |allResponses]; simpl;
    try reflexivity.
  unfold save_response; simpl.
  destruct (forallb castable_entry allResponses); simpl; [|reflexivity].
  unfold calculateResults.
  destruct (score_of _ _); simpl; reflexivity.
Qed.

Lemma post_responses_not_student clk user classId quizId req_body w :
  (forall decoded, user = Some decoded -> role decoded <> "student") ->
  run (post_responses clk user classId quizId req_body) w = (Some OnlyStudents, w).
Proof.
  intros H. unfold post_responses. destruct user as [decoded|]; [|reflexivity].
  specialize (H decoded eq_refl). apply String.eqb_neq in H. rewrite H.
  reflexivity.
Qed.

(** The quiz route for a student who belongs to the class. *)
Lemma get_quiz_run_student clk decoded classId quizId w myClass :
  role decoded = "student" ->
  class_in w classId = Some myClass ->
  includes (id decoded) (students myClass) = true ->
  run (get_quiz clk (Some decoded) classId quizId) w =
  match quiz_in w quizId with
  | None => (Some QuizNotFound, w)
  | Some quiz =>
    match viewWindow clk quiz with
    | ENDED => (Some QuizEnded, w)
    | NOT_STARTED => (Some QuizNotStarted, w)
    | ACTIVE =>
      match attempt_in w (id decoded) quizId with
      | Some _ => (Some AlreadySubmitted, w)
      | None => (Some (mkResponse 200 (QuizDetail quiz)), w)
      end
    end
  end.
Proof.
  intros Hrole Hclass Hin. unfold get_quiz, isUser, class_in, quiz_in, attempt_in in *.
  rewrite Hrole. cbn [String.eqb Ascii.eqb Bool.eqb negb orb].
  rewrite run_try_catch. simpl. rewrite Hclass. simpl.
  rewrite Hin, orb_true_r. simpl.
  destruct (find _ (Quizzes w)) as [quiz|]; simpl; [|reflexivity].
  destruct (viewWindow clk quiz); simpl; try reflexivity.
  destruct (find _ (StudentResponses w)); reflexivity.
Qed.

(** ** The window *)

Lemma setMinutes_shift tza t m :
  Date.setMinutes tza t m
  = Date.TimeClip (t + (m - Date.getMinutes tza t) * msPerMinute).
Proof.
  unfold Date.setMinutes; cbv zeta. f_equal.
  unfold Date.getMinutes, msPerDay, msPerHour, msPerMinute, msPerSecond.
  set (lt := t + tza).
  pose proof (Z.div_mod lt 1000 ltac:(lia)) as H1.
  pose proof (Z.div_mod (lt / 1000) 60 ltac:(lia)) as H2.
  pose proof (Z.div_mod (lt / 60000) 60 ltac:(lia)) as H3.
  pose proof (Z.div_mod (lt / 3600000) 24 ltac:(lia)) as H4.
  rewrite (Z.div_div lt 1000 60) in H2 by lia.
  rewrite (Z.div_div lt 60000 60) in H3 by lia.
  rewrite (Z.div_div lt 3600000 24) in H4 by lia.
  change (1000 * 60) with 60000 in H2.
  change (60000 * 60) with 3600000 in H3.
  change (3600000 * 24) with 86400000 in H4.
  lia.
Qed.

Lemma endDate_of_raw clk quiz :
  endDate_of clk quiz = Date.TimeClip (raw_endDate clk quiz).
Proof. unfold endDate_of, raw_endDate. apply setMinutes_shift. Qed.

Lemma gt_TimeClip a t :
  Date.gt a (Date.TimeClip t) = true <-> t < a /\ Z.abs t <= Date.maxTime.
Proof.
  unfold Date.gt, Date.TimeClip.
  destruct (Z.leb_spec (Z.abs t) Date.maxTime); simpl.
  - rewrite Z.gtb_ltb, Z.ltb_lt. tauto.
  - split; [discriminate | lia].
Qed.

(** What the two tests of the submission route decide. *)
Lemma submitWindow_spec clk quiz :
  let now := currentDate_now clk in
  let over :=
    start_date quiz < now /\ raw_endDate clk quiz < now /\
    Z.abs (raw_endDate clk quiz) <= Date.maxTime in
  (submitWindow clk quiz = ENDED <-> over) /\
  (submitWindow clk quiz = NOT_STARTED <-> now < start_date quiz) /\
  (submitWindow clk quiz = ACTIVE <-> start_date quiz <= now /\ ~ over).
Proof.
  cbv zeta. unfold submitWindow. cbv zeta.
  fold (endDate_of clk quiz). rewrite endDate_of_raw.
  pose proof (gt_TimeClip (currentDate_now clk) (raw_endDate clk quiz)) as G.
  rewrite Z.gtb_ltb.
  destruct (Z.ltb_spec (start_date quiz) (currentDate_now clk));
    destruct (Date.gt (currentDate_now clk) (Date.TimeClip (raw_endDate clk quiz)));
    destruct (Z.ltb_spec (currentDate_now clk) (start_date quiz));
    simpl; repeat split; intros; try discriminate; try lia; try tauto;
    try (destruct G as [G1 G2]; specialize (G1 eq_refl); tauto);
    try (intros (? & ? & ?); destruct G as [G1 G2];
         assert (false = true) by (apply G2; tauto); discriminate).
Qed.

(** On a clock that does not move during the request the time value of
    [endDate] lies before [now] exactly when the minute of the hour of [now]
    is past the minute of the hour of [start_date] plus [duration]; the hour
    and the day of [now] play no part. *)
Lemma endDate_instant tza now quiz :
  raw_endDate (instant tza now) quiz < now <->
  Date.getMinutes tza (start_date quiz) + duration quiz < Date.getMinutes tza now.
Proof. unfold raw_endDate, instant; simpl. unfold msPerMinute. lia. Qed.



(** X2: on such a clock the submission route answers "already passed"
    exactly when [now] is after [start_date], the minute of the hour of [now]
    is past the minute of the hour of [start_date] plus [duration], and the
    time value [setMinutes] arrives at is one of a valid date; with an
    [endDate] out of range the quiz never counts as over. *)
Lemma submitWindow_instant_ended tza now quiz :
  submitWindow (instant tza now) quiz = ENDED <->
  start_date quiz < now /\
  Date.getMinutes tza (start_date quiz) + duration quiz < Date.getMinutes tza now /\
  Z.abs (now + (Date.getMinutes tza (start_date quiz) + duration quiz
                - Date.getMinutes tza now) * msPerMinute) <= Date.maxTime.
Proof.
  rewrite <- endDate_instant. apply (submitWindow_spec (instant tza now) quiz).
Qed.

Lemma viewWindow_submitWindow clk quiz : viewWindow clk quiz = submitWindow clk quiz.
Proof. reflexivity. Qed.

(** C1 (the route departs from the claim): the end of the window is not
    [start_date] plus [duration] minutes.  The example quiz starts at 10:00
    and lasts 30 minutes; at 11:10, forty minutes after its end, the window
    tests of the submission route still find it running, and the submission
    is accepted and scored. *)
Theorem window_still_active_after_end :
  let now := Example.start + 70 * msPerMinute in
  start_date Example.quiz + duration Example.quiz * msPerMinute < now /\
  submitWindow (instant 0 now) Example.quiz = ACTIVE /\
  fst (run (post_responses (instant 0 now) Example.alice Example.class1 Example.quiz1
              (mkSubmitBody Example.alice_id (JArr [Example.answer Example.q1_id [Example.o1]])))
           Example.world)
  = Some (mkResponse 200 (Submitted "Student responses stored successfully" 1 2)).
Proof. vm_compute. repeat split. Qed.

(** With no quiz under [quizId] the submission route raises while it
    computes [endDate], and its [catch] answers 500. *)
Lemma post_responses_quiz_absent clk decoded classId quizId req_body w :
  role decoded = "student" ->
  quiz_in w quizId = None ->
  run (post_responses clk (Some decoded) classId quizId req_body) w
  = (Some InternalFailure, w).
Proof.
  intros Hrole Hq. rewrite post_responses_run by assumption. now rewrite Hq.
Qed.

(** C4 (the route departs from the claim): a submission to a quiz id under
    which the store holds nothing is answered with the 500 of the [catch]
    block, not with "Quiz not found", and the store is left as it was. *)
Theorem submit_to_absent_quiz_is_internal_failure :
  run (post_responses Example.during Example.alice Example.class1 Example.quiz2
         (mkSubmitBody Example.alice_id (JArr [Example.answer Example.q1_id [Example.o1]])))
      Example.world
  = (Some InternalFailure, Example.world)
  /\ InternalFailure <> QuizNotFound.
Proof. split; [reflexivity | discriminate]. Qed.

(** C7: the window tests of the quiz route and of the submission route
    agree.  The two classifications are equal, and for a student of the
    class and a stored quiz each route answers "already passed" exactly when
    the classification is [ENDED] and "has not started" exactly when it is
    [NOT_STARTED]. *)
Theorem window_same_at_both_call_sites
    clk decoded classId quizId req_body w myClass quiz :
  role decoded = "student" ->
  class_in w classId = Some myClass ->
  includes (id decoded) (students myClass) = true ->
  quiz_in w quizId = Some quiz ->
  let view := fst (run (get_quiz clk (Some decoded) classId quizId) w) in
  let submit :=
    fst (run (post_responses clk (Some decoded) classId quizId req_body) w) in
  viewWindow clk quiz = submitWindow clk quiz /\
  (view = Some QuizEnded <-> viewWindow clk quiz = ENDED) /\
  (submit = Some QuizEnded <-> submitWindow clk quiz = ENDED) /\
  (view = Some QuizNotStarted <-> viewWindow clk quiz = NOT_STARTED) /\
  (submit = Some QuizNotStarted <-> submitWindow clk quiz = NOT_STARTED).
Proof.
  intros Hrole Hclass Hin Hquiz view submit. subst view submit.
  rewrite get_quiz_run_student with (myClass := myClass) by assumption.
  rewrite post_responses_run by assumption.
  rewrite Hquiz.
  split; [apply viewWindow_submitWindow|].
  change (submitWindow clk quiz) with (viewWindow clk quiz).
  destruct (viewWindow clk quiz); simpl; break_matches;
    repeat split; intros H; try discriminate H; reflexivity.
Qed.

Lemma window_same_at_both_call_sites_witness :
  viewWindow Example.during Example.quiz = submitWindow Example.during Example.quiz /\
  (fst (run (get_quiz Example.during Example.alice Example.class1 Example.quiz1) Example.world)
     = Some QuizEnded <-> viewWindow Example.during Example.quiz = ENDED).
Proof.
  pose proof (@window_same_at_both_call_sites Example.during
                (mkDecoded Example.alice_id "student") Example.class1 Example.quiz1
                (mkSubmitBody Example.alice_id (JArr []))
                Example.world
                (mkClass Example.class1 "Math" Example.teacher1 [Example.alice_id; Example.bob_id] [Example.quiz1])
                Example.quiz eq_refl eq_refl eq_refl eq_refl) as H.
  cbv zeta in H. destruct H as (H1 & H2 & _). split; assumption.
Defined.

(** ** Scoring *)







Lemma wellFormed_inv response :
  wellFormed response = true ->
  exists qid selected,
    get_prop response "question_id" = Some qid /\ truthy qid = true /\
    get_prop response "selected_options" = Some (JArr selected).
Proof.
  unfold wellFormed.
  destruct (get_prop response "question_id") as [qid|]; [|discriminate].
  destruct (get_prop response "selected_options") as [sel|]; [|discriminate].
  intros H. apply andb_true_iff in H as [Ht Ha].
  destruct sel; try discriminate. eauto.
Qed.



Lemma validate_loop_wellFormed submitted : forall allResponses,
  Forall (fun r => wellFormed r = true) submitted ->
  validate_loop submitted allResponses
  = Valid (allResponses ++ map entry_of submitted).
Proof.
  induction submitted as [|r rest IH]; intros acc Hall; simpl.
  - now rewrite app_nil_r.
  - inversion Hall as [|? ? Hr Hrest]; subst.
    destruct (wellFormed_inv _ Hr) as (qid & sel & Hq & Ht & Hs).
    rewrite Hq, Hs, Ht; simpl. rewrite IH by assumption.
    rewrite <- app_assoc. unfold entry_of, prop_or_undefined.
    now rewrite Hq, Hs.
Qed.













(** ** Malformed batches *)



(** A batch with an element the loop does not let through is never
    accepted: the loop leaves by [return] or by an exception. *)
Lemma validate_loop_not_valid submitted : forall allResponses,
  Exists (fun r => wellFormed r = false) submitted ->
  forall accepted, validate_loop submitted allResponses <> Valid accepted.
Proof.
  induction submitted as [|r rest IH]; intros acc Hex accepted.
  - inversion Hex.
  - simpl.
    destruct (get_prop r "question_id") as [q|] eqn:Eq; [|discriminate].
    destruct (get_prop r "selected_options") as [s|] eqn:Es; [|discriminate].
    destruct (truthy q) eqn:Tq; simpl; [|discriminate].
    destruct (truthy s) eqn:Ts; simpl; [|discriminate].
    destruct (isArray s) eqn:As; simpl; [|discriminate].
    apply IH. inversion Hex as [? ? Hr|? ? Hrest]; subst; [|assumption].
    unfold wellFormed in Hr. rewrite Eq, Es, Tq, As in Hr. discriminate.
Qed.







(** ** What a student is shown *)

Lemma has_key_option o : has_key "is_correct" (option_json o) = true.
Proof. reflexivity. Qed.

Lemma has_key_question question o :
  In o (options question) -> has_key "is_correct" (question_json question) = true.
Proof.
  intros Hin. unfold question_json.
  cbn [has_key existsb String.eqb Ascii.eqb Bool.eqb orb].
  apply orb_true_iff; left.
  apply existsb_exists. exists (option_json o); split.
  - now apply in_map.
  - apply has_key_option.
Qed.

Lemma has_key_quiz quiz question o :
  In question (questions quiz) -> In o (options question) ->
  has_key "is_correct" (body_json (QuizDetail quiz)) = true.
Proof.
  intros Hq Ho. unfold body_json, quiz_json.
  cbn [has_key existsb String.eqb Ascii.eqb Bool.eqb orb].
  rewrite !orb_false_r.
  apply existsb_exists. exists (question_json question); split.
  - now apply in_map.
  - now apply has_key_question with (o := o).
Qed.

(** C6, counterexample: alice, a student of the class, asks for the example
    quiz ten minutes into its window; the answer is a 200 and carries the
    [is_correct] flags. *)
Lemma student_view_shows_flags : ~ student_view_omits_flags.
Proof.
  intros H.
  specialize (H Example.during (mkDecoded Example.alice_id "student") Example.class1 Example.quiz1
                Example.world (mkResponse 200 (QuizDetail Example.quiz))
                eq_refl eq_refl eq_refl).
  discriminate H.
Qed.

(** C6, as amended: a student of the class who asks for a stored quiz
    inside its window and has no attempt on it is sent the stored quiz
    document as it is, and with it the [is_correct] flag of every option of
    every question. *)
Theorem student_view_returns_stored_quiz
    clk decoded classId quizId w myClass quiz :
  role decoded = "student" ->
  class_in w classId = Some myClass ->
  includes (id decoded) (students myClass) = true ->
  quiz_in w quizId = Some quiz ->
  viewWindow clk quiz = ACTIVE ->
  attempt_in w (id decoded) quizId = None ->
  run (get_quiz clk (Some decoded) classId quizId) w
  = (Some (mkResponse 200 (QuizDetail quiz)), w) /\
  body_json (QuizDetail quiz) = JObj [("quiz", quiz_json quiz)] /\
  (forall question o,
      In question (questions quiz) -> In o (options question) ->
      In (option_json o) (map option_json (options question)) /\
      get_prop (option_json o) "is_correct" = Some (JBool (is_correct o)) /\
      has_key "is_correct" (body_json (QuizDetail quiz)) = true).
Proof.
  intros Hrole Hclass Hin Hquiz Hwin Hnone.
  rewrite get_quiz_run_student with (myClass := myClass) by assumption.
  rewrite Hquiz, Hwin, Hnone.
  split; [reflexivity|]. split; [reflexivity|].
  intros question o Hq Ho. split; [now apply in_map|]. split; [reflexivity|].
  now apply has_key_quiz with (question := question) (o := o).
Qed.

Lemma student_view_returns_stored_quiz_witness :
  run (get_quiz Example.during Example.alice Example.class1 Example.quiz1) Example.world
  = (Some (mkResponse 200 (QuizDetail Example.quiz)), Example.world).
Proof.
  exact (proj1 (@student_view_returns_stored_quiz Example.during
                  (mkDecoded Example.alice_id "student") Example.class1 Example.quiz1 Example.world
                  (mkClass Example.class1 "Math" Example.teacher1 [Example.alice_id; Example.bob_id] [Example.quiz1])
                  Example.quiz eq_refl eq_refl eq_refl eq_refl eq_refl eq_refl)).
Defined.

(** ** Who may read and who may write *)

Lemma attempt_in_some w student quiz :
  attempt_in w student quiz <> None <->
  exists d, In d (StudentResponses w) /\
            response_student_id d = student /\ response_quiz_id d = quiz.
Proof.
  unfold attempt_in. split.
  - destruct (find _ _) as [d|] eqn:F; [|congruence]. intros _.
    apply find_some in F as [Hin Hd]. unfold response_for in Hd.
    apply andb_true_iff in Hd as [H1 H2].
    apply String.eqb_eq in H1, H2. eauto.
  - intros (d & Hin & H1 & H2) F.
    apply (find_none _ _ F) in Hin. unfold response_for in Hin.
    rewrite H1, H2, !String.eqb_refl in Hin. discriminate.
Qed.




(** What an accepted submission leaves behind. *)
Lemma post_responses_accepted clk user classId quizId req_body w message s o :
  fst (run (post_responses clk user classId quizId req_body) w)
  = Some (mkResponse 200 (Submitted message s o)) ->
  exists accepted,
    attempt_in w (student_id req_body) quizId = None /\
    snd (run (post_responses clk user classId quizId req_body) w)
    = add_result
        (add_response w (mkStudentResponse (student_id req_body) quizId accepted))
        (mkStudentResult (student_id req_body) quizId s (submitted_now clk) o).
Proof.
  destruct user as [decoded|];
    [|rewrite post_responses_not_student by discriminate; discriminate].
  destruct (String.eqb_spec (role decoded) "student") as [Hrole|Hrole].
  - rewrite post_responses_run by assumption.
    destruct (quiz_in w quizId) as [quiz|]; [|discriminate].
    destruct (submitWindow clk quiz); try discriminate.
    destruct (attempt_in w (student_id req_body) quizId); [discriminate|].
    destruct (validate (body_responses req_body)) as [| |accepted];
      try discriminate.
    destruct (forallb castable_entry accepted); simpl; [|discriminate].
    destruct (score_of _ _) as [n|]; simpl; [|discriminate].
    intros H; injection H as _ <- <-. now exists accepted.
  - rewrite post_responses_not_student; [discriminate|].
    intros d Hd; injection Hd as <-. assumption.
Qed.



(** ** One attempt per student and quiz *)

Lemma response_for_key student quiz d :
  response_for student quiz d = true <-> response_key d = (student, quiz).
Proof.
  unfold response_for, response_key. rewrite andb_true_iff, !String.eqb_eq.
  split; [intros [-> ->]; reflexivity | intros H; injection H; auto].
Qed.

Lemma result_for_key student quiz d :
  result_for student quiz d = true <-> result_key d = (student, quiz).
Proof.
  unfold result_for, result_key. rewrite andb_true_iff, !String.eqb_eq.
  split; [intros [-> ->]; reflexivity | intros H; injection H; auto].
Qed.

Section Keyed.

Variables (D : Type) (key : D -> Id * Id) (matches : Id -> Id -> D -> bool).
Hypothesis matches_key :
  forall student quiz d, matches student quiz d = true <-> key d = (student, quiz).

Lemma filter_absent student quiz (l : list D) :
  ~ In (student, quiz) (map key l) -> filter (matches student quiz) l = [].
Proof.
  induction l as [|d l IH]; simpl; intros Hnot; [reflexivity|].
  destruct (matches student quiz d) eqn:M.
  - apply matches_key in M. elim Hnot; now left.
  - apply IH. intros Hin; apply Hnot; now right.
Qed.

Lemma NoDup_at_most_one student quiz (l : list D) :
  NoDup (map key l) ->
  (List.length (filter (matches student quiz) l) <= 1)%nat.
Proof.
  induction l as [|d l IH]; simpl; intros Hnd; [lia|].
  apply NoDup_cons_iff in Hnd as [Hnot Hnd].
  destruct (matches student quiz d) eqn:M; [|now apply IH].
  apply matches_key in M. rewrite M in Hnot.
  rewrite filter_absent by assumption. simpl; lia.
Qed.

Lemma NoDup_snoc (l : list D) d :
  NoDup (map key l) -> ~ In (key d) (map key l) ->
  NoDup (map key (l ++ [d])).
Proof.
  intros Hnd Hnot. rewrite map_app; simpl.
  apply Permutation_NoDup with (l := key d :: map key l).
  - apply Permutation_cons_append.
  - now constructor.
Qed.

Lemma find_none_absent student quiz (l : list D) :
  find (matches student quiz) l = None -> ~ In (student, quiz) (map key l).
Proof.
  intros F Hin. apply in_map_iff in Hin as (d & Hk & Hin).
  apply (find_none _ _ F) in Hin. apply matches_key in Hk. congruence.
Qed.

End Keyed.

Lemma consistent_at_most_one w : consistent w -> at_most_one_attempt w.
Proof.
  intros (Hr & Hs & _) student quiz. split.
  - now apply NoDup_at_most_one with (key := response_key);
      [apply response_for_key|].
  - now apply NoDup_at_most_one with (key := result_key);
      [apply result_for_key|].
Qed.

(** What one submission served from start to end leaves in the store. *)
Lemma submit_world s w :
  let student := student_id (sub_body s) in
  let quiz := sub_quizId s in
  let w' := snd (run (submit s) w) in
  w' = w \/
  (attempt_in w student quiz = None /\
   exists d, response_key d = (student, quiz) /\
     (w' = add_response w d \/
      exists r, result_key r = (student, quiz) /\
                w' = add_result (add_response w d) r)).
Proof.
  destruct s as [clk user classId quizId req_body]; unfold submit; simpl.
  destruct user as [decoded|];
    [|left; now rewrite post_responses_not_student by discriminate].
  destruct (String.eqb_spec (role decoded) "student") as [Hrole|Hrole].
  - rewrite post_responses_run by assumption.
    destruct (quiz_in w quizId) as [quiz|]; [|now left].
    destruct (submitWindow clk quiz); try (now left).
    destruct (attempt_in w (student_id req_body) quizId) eqn:A; [now left|].
    destruct (validate (body_responses req_body)) as [| |accepted];
      try (now left).
    destruct (forallb castable_entry accepted); simpl; [|now left].
    right; split; [reflexivity|].
    exists (mkStudentResponse (student_id req_body) quizId accepted).
    split; [reflexivity|].
    destruct (score_of _ _) as [n|]; simpl; [|now left].
    right. eexists; split; [|reflexivity]. reflexivity.
  - left. rewrite post_responses_not_student; [reflexivity|].
    intros d Hd; injection Hd as <-. assumption.
Qed.

Lemma submit_consistent s w : consistent w -> consistent (snd (run (submit s) w)).
Proof.
  intros (Hr & Hs & Hincl).
  destruct (submit_world s w) as [->|(Hnone & d & Hd & Hw)];
    [repeat split; assumption|].
  apply (find_none_absent response_key response_for response_for_key) in Hnone.
  rewrite <- Hd in Hnone.
  assert (NoDup (map response_key (StudentResponses w ++ [d]))) as Hr'
    by now apply NoDup_snoc.
  assert (incl (map result_key (StudentResults w))
               (map response_key (StudentResponses w ++ [d]))) as Hincl'
    by (rewrite map_app; now apply incl_appl).
  destruct Hw as [-> | (r & Hk & ->)]; unfold consistent; simpl.
  - repeat split; assumption.
  - repeat split; [assumption| |].
    + apply NoDup_snoc; [assumption|].
      rewrite Hk, <- Hd. intros Hin. apply Hnone. now apply Hincl.
    + rewrite (map_app result_key). apply incl_app; [assumption|].
      simpl. apply incl_cons; [|apply incl_nil_l].
      rewrite Hk, <- Hd, map_app. apply in_or_app; right; now left.
Qed.

Lemma serve_in_turn_consistent subs : forall w,
  consistent w -> consistent (serve_in_turn subs w).
Proof.
  induction subs as [|s rest IH]; intros w Hw; simpl; [assumption|].
  apply IH. now apply submit_consistent.
Qed.

(** One request alone in flight, resumed again and again, ends as [run]
    says. *)
Lemma interleave_alone {A : Type} n : forall (p : Prog A) w,
  exists p', fst (interleave (repeat 0%nat n) [p] w) = [p'] /\
             run p' (snd (interleave (repeat 0%nat n) [p] w)) = run p w.
Proof.
  induction n as [|n IH]; intros p w; simpl.
  - exists p; split; reflexivity.
  - destruct (resume p w) as [p1 w1] eqn:R. simpl.
    destruct (IH p1 w1) as (p' & Hp & Hrun). exists p'; split; [assumption|].
    rewrite Hrun. pose proof (run_resume p w) as H. now rewrite R in H.
Qed.

(** C8, counterexample: the same submission of alice is sent twice and the
    two requests take turns at each await.  Both find no earlier response
    before either saves one, and the store ends with two responses and two
    results for alice and the quiz. *)
Lemma two_attempts_when_interleaved : ~ one_attempt_under_interleaving.
Proof.
  intros H.
  pose (s := mkSubmission Example.during Example.alice Example.class1 Example.quiz1
               (mkSubmitBody Example.alice_id (JArr [Example.answer Example.q1_id [Example.o1]]))).
  specialize (H [0; 1; 0; 1; 0; 1; 0; 1]%nat [s; s] Example.world
                (conj eq_refl eq_refl) Example.alice_id Example.quiz1).
  destruct H as [H _]. vm_compute in H. lia.
Qed.

(** C8, as amended: from a store without attempts, submission requests
    that are handled one after the other, each from start to end, never
    leave two responses or two results for one student and quiz. *)
Theorem one_attempt_when_served_in_turn subs w :
  no_attempts w -> at_most_one_attempt (serve_in_turn subs w).
Proof.
  intros [Hr Hs]. apply consistent_at_most_one, serve_in_turn_consistent.
  unfold consistent. rewrite Hr, Hs. simpl.
  repeat split; try constructor. apply incl_nil_l.
Qed.

Lemma one_attempt_when_served_in_turn_witness :
  at_most_one_attempt
    (serve_in_turn
       [mkSubmission Example.during Example.alice Example.class1 Example.quiz1
          (mkSubmitBody Example.alice_id (JArr [Example.answer Example.q1_id [Example.o1]]));
        mkSubmission Example.during Example.alice Example.class1 Example.quiz1
          (mkSubmitBody Example.alice_id (JArr [Example.answer Example.q1_id [Example.o1]]))]
       Example.world).
Proof.
  apply one_attempt_when_served_in_turn. split; reflexivity.
Defined.


(** ** More on the window *)


Lemma getMinutes_range tza t : 0 <= Date.getMinutes tza t < 60.
Proof. unfold Date.getMinutes. apply Z.mod_pos_bound. lia. Qed.

Lemma getMinutes_hours tza t k :
  Date.getMinutes tza (t + k * msPerHour) = Date.getMinutes tza t.
Proof.
  unfold Date.getMinutes, msPerHour, msPerMinute.
  replace (t + k * 3600000 + tza) with ((t + tza) + (k * 60) * 60000) by lia.
  rewrite Z.div_add by lia.
  apply Z.mod_add. lia.
Qed.

(** After its start, on a clock that does not move, the state of a quiz is
    read off the minute of the hour and the range of [endDate]. *)
Lemma submitWindow_instant_after tza now quiz :
  start_date quiz < now ->
  submitWindow (instant tza now) quiz =
  if (Date.getMinutes tza (start_date quiz) + duration quiz <? Date.getMinutes tza now)
     && (Z.abs (raw_endDate (instant tza now) quiz) <=? Date.maxTime)
  then ENDED else ACTIVE.
Proof.
  intros Hlt.
  destruct (submitWindow_spec (instant tza now) quiz) as (He & Hn & Ha).
  simpl in He, Hn, Ha. rewrite endDate_instant in He, Ha.
  destruct (Z.ltb_spec (Date.getMinutes tza (start_date quiz) + duration quiz)
                       (Date.getMinutes tza now)) as [L|L];
    destruct (Z.leb_spec (Z.abs (raw_endDate (instant tza now) quiz)) Date.maxTime)
      as [R|R]; simpl.
  - apply He. tauto.
  - apply Ha. split; [lia|]. intros (_ & _ & R'). lia.
  - apply Ha. split; [lia|]. intros (_ & L' & _). lia.
  - apply Ha. split; [lia|]. intros (_ & L' & _). lia.
Qed.

(** X3: a quiz whose minute of the hour of [start_date] plus [duration]
    reaches 60 never counts as over: whenever the second clock read of a
    request is not before the first and less than a minute after it, the
    submission route does not answer "already passed". *)
Theorem window_never_ends clk quiz :
  60 <= Date.getMinutes (LocalTZA clk) (start_date quiz) + duration quiz ->
  endDate_now clk <= currentDate_now clk < endDate_now clk + msPerMinute ->
  submitWindow clk quiz <> ENDED.
Proof.
  intros H Hreads E.
  apply (submitWindow_spec clk quiz) in E as (_ & E & _).
  unfold raw_endDate in E.
  pose proof (getMinutes_range (LocalTZA clk) (endDate_now clk)).
  unfold msPerMinute in *. lia.
Qed.

Lemma window_never_ends_witness :
  submitWindow
    (mkClock 0 (Example.start + 1000 * msPerDay + 59 * msPerMinute + 59999)
               (Example.start + 1000 * msPerDay + 60 * msPerMinute) 0)
    (mkQuiz Example.quiz1 "Math Quiz" Example.class1 Example.start 60 []) <> ENDED.
Proof.
  apply window_never_ends.
  - vm_compute. discriminate.
  - vm_compute. split; [discriminate | reflexivity].
Defined.

Lemma next_hour tza now :
  let t := ((now + tza) / msPerHour + 1) * msPerHour - tza in
  now < t <= now + msPerHour /\ Date.getMinutes tza t = 0.
Proof.
  cbv zeta. unfold Date.getMinutes, msPerHour, msPerMinute.
  pose proof (Z.div_mod (now + tza) 3600000 ltac:(lia)) as D.
  pose proof (Z.mod_pos_bound (now + tza) 3600000 ltac:(lia)) as B.
  split; [lia|].
  replace (((now + tza) / 3600000 + 1) * 3600000 - tza + tza)
    with ((((now + tza) / 3600000 + 1) * 60) * 60000) by lia.
  rewrite Z.div_mul by lia. apply Z.mod_mul. lia.
Qed.

(** X4: once a quiz has started, on a clock that does not move and as
    long as [endDate] stays a valid date, what the submission route decides
    at [now] it decides again any number of hours later; and when the minute
    of the hour of [start_date] plus [duration] is not negative, a started
    quiz is found running again within the hour after any [now], also after
    it counted as over. *)
Theorem window_recurs_every_hour tza quiz now :
  start_date quiz < now ->
  (forall k,
      0 <= k ->
      Z.abs (raw_endDate (instant tza now) quiz) <= Date.maxTime ->
      Z.abs (raw_endDate (instant tza (now + k * msPerHour)) quiz) <= Date.maxTime ->
      submitWindow (instant tza (now + k * msPerHour)) quiz
      = submitWindow (instant tza now) quiz) /\
  (0 <= Date.getMinutes tza (start_date quiz) + duration quiz ->
   exists t, now < t <= now + msPerHour /\
             submitWindow (instant tza t) quiz = ACTIVE).
Proof.
  intros Hlt. split.
  - intros k Hk R1 R2.
    rewrite !submitWindow_instant_after by (unfold msPerHour; lia).
    rewrite getMinutes_hours.
    apply Z.leb_le in R1, R2. now rewrite R1, R2.
  - intros Hpos.
    destruct (next_hour tza now) as [Ht Hm].
    set (t := ((now + tza) / msPerHour + 1) * msPerHour - tza) in *.
    exists t. split; [assumption|].
    apply (submitWindow_spec (instant tza t) quiz). simpl.
    split; [lia|]. intros (_ & L & _). apply endDate_instant in L. lia.
Qed.

Lemma window_recurs_every_hour_witness :
  submitWindow (instant 0 (Example.start + 40 * msPerMinute + 5 * msPerHour))
    Example.quiz
  = submitWindow (instant 0 (Example.start + 40 * msPerMinute)) Example.quiz.
Proof.
  refine (proj1 (@window_recurs_every_hour 0 Example.quiz
                   (Example.start + 40 * msPerMinute) _) 5 _ _ _);
    vm_compute; try reflexivity; discriminate.
Defined.

(** X5: when the clock moves between the two [new Date()] of a request, by
    less than a minute, the quiz counts as over already in the minute that
    equals the minute of [start_date] plus [duration], as long as [endDate]
    is a valid date; on a clock that stands still that minute is still inside
    the window.  The answer in that minute depends on whether a millisecond
    passed between the two reads. *)
Theorem window_between_clock_reads clk quiz e :
  currentDate_now clk = endDate_now clk + e ->
  0 < e < msPerMinute ->
  (submitWindow clk quiz = ENDED <->
   start_date quiz < currentDate_now clk /\
   Date.getMinutes (LocalTZA clk) (start_date quiz) + duration quiz
   <= Date.getMinutes (LocalTZA clk) (endDate_now clk) /\
   Z.abs (raw_endDate clk quiz) <= Date.maxTime) /\
  (start_date quiz <= endDate_now clk ->
   Date.getMinutes (LocalTZA clk) (start_date quiz) + duration quiz
   = Date.getMinutes (LocalTZA clk) (endDate_now clk) ->
   submitWindow (instant (LocalTZA clk) (endDate_now clk)) quiz = ACTIVE).
Proof.
  intros Hcur He. split.
  - destruct (submitWindow_spec clk quiz) as (Hended & _). cbv zeta in Hended.
    rewrite Hended. unfold raw_endDate. rewrite Hcur.
    unfold msPerMinute in *. split; intros (H1 & H2 & H3); repeat split; lia.
  - intros Hstart Hsame.
    apply (submitWindow_spec (instant (LocalTZA clk) (endDate_now clk)) quiz).
    simpl. split; [assumption|]. intros (_ & L & _).
    apply endDate_instant in L. lia.
Qed.

Lemma window_between_clock_reads_witness :
  submitWindow
    (mkClock 0 (Example.start + 30 * msPerMinute)
               (Example.start + 30 * msPerMinute + 1) 0) Example.quiz = ENDED
  /\ submitWindow (instant 0 (Example.start + 30 * msPerMinute)) Example.quiz = ACTIVE.
Proof.
  destruct (@window_between_clock_reads
              (mkClock 0 (Example.start + 30 * msPerMinute)
                         (Example.start + 30 * msPerMinute + 1) 0)
              Example.quiz 1 eq_refl) as [Hmoving Hstill].
  - vm_compute; split; reflexivity.
  - split.
    + apply Hmoving. vm_compute; repeat split; discriminate.
    + apply Hstill; [vm_compute; discriminate | reflexivity].
Defined.

(** ** More on the submission route *)

(** X6: the validation loop accepts a batch exactly when every element is
    an object with a truthy [question_id] and an array [selected_options],
    and what it hands to the store is then every response, unchanged and in
    the order sent. *)
Theorem validate_accepts_iff (submitted : list JsVal) accepted :
  validate (JArr submitted) = Valid accepted <->
  Forall (fun r => wellFormed r = true) submitted /\
  accepted = map entry_of submitted.
Proof.
  unfold validate; simpl. split.
  - intros Hv.
    destruct (Forall_Exists_dec (fun r => wellFormed r = true)
                (fun r => bool_dec (wellFormed r) true) submitted) as [Hall|Hex].
    + split; [assumption|].
      rewrite validate_loop_wellFormed in Hv by assumption. now injection Hv.
    + exfalso. apply (@validate_loop_not_valid submitted [] ) with (accepted := accepted);
        [|assumption].
      apply Exists_exists in Hex as (r & Hin & Hr). apply Exists_exists.
      exists r; split; [assumption|]. now apply not_true_is_false.
  - intros [Hall ->]. now rewrite validate_loop_wellFormed.
Qed.




Lemma attempt_in_add_response w d :
  attempt_in (add_response w d) (response_student_id d) (response_quiz_id d) <> None.
Proof.
  apply attempt_in_some. exists d. simpl. repeat split.
  apply in_or_app; right; now left.
Qed.

Lemma result_in_add_result w d :
  result_in w (result_student_id d) (result_quiz_id d) = None ->
  result_in (add_result w d) (result_student_id d) (result_quiz_id d) = Some d.
Proof.
  unfold result_in; simpl. intros Hnone.
  induction (StudentResults w) as [|x l IH]; simpl in *.
  - unfold result_for. now rewrite !String.eqb_refl.
  - destruct (result_for _ _ x); [discriminate|]. now apply IH.
Qed.



(** X9: what a submission answers is what the result route then finds:
    after a submission answered with a score and [out_of], and when the
    store held no earlier result of that student for the quiz, the result
    route answers with the same score and the same [out_of], to any caller. *)
Theorem result_lookup_returns_submitted_score
    clk user classId quizId req_body w message s o caller classId' :
  fst (run (post_responses clk user classId quizId req_body) w)
  = Some (mkResponse 200 (Submitted message s o)) ->
  result_in w (student_id req_body) quizId = None ->
  let w' := snd (run (post_responses clk user classId quizId req_body) w) in
  run (get_result caller classId' quizId (student_id req_body)) w'
  = (Some (mkResponse 200 (Result s o)), w').
Proof.
  intros Hok Hnone w'. subst w'.
  destruct (post_responses_accepted _ _ _ _ _ _ Hok) as (accepted & _ & ->).
  unfold get_result. rewrite run_try_catch. simpl.
  set (d := mkStudentResult (student_id req_body) quizId s (submitted_now clk) o).
  pose proof (@result_in_add_result
                (add_response w (mkStudentResponse (student_id req_body) quizId accepted))
                d Hnone) as H.
  unfold result_in in H; simpl in H. now rewrite H.
Qed.

Lemma result_lookup_returns_submitted_score_witness :
  fst (run (get_result Example.bob Example.class1 Example.quiz1 Example.alice_id)
           (snd (run (post_responses Example.during Example.alice Example.class1 Example.quiz1
                        (mkSubmitBody Example.alice_id (JArr [Example.answer Example.q1_id [Example.o1]])))
                     Example.world)))
  = Some (mkResponse 200 (Result 1 2)).
Proof.
  exact (f_equal fst
           (@result_lookup_returns_submitted_score Example.during Example.alice
              Example.class1 Example.quiz1
              (mkSubmitBody Example.alice_id (JArr [Example.answer Example.q1_id [Example.o1]]))
              Example.world "Student responses stored successfully" 1%nat 2%nat
              Example.bob Example.class1 eq_refl eq_refl)).
Defined.

(** X10: one attempt, in turn: once a submission was answered with a
    score, every later submission in the name of that student for the quiz
    is answered "already taken" and writes nothing, and so is the student's
    request to see the quiz. *)
Theorem second_attempt_rejected
    clk user classId quizId req_body w message s o quiz
    clk' decoded' classId' req_body' myClass :
  fst (run (post_responses clk user classId quizId req_body) w)
  = Some (mkResponse 200 (Submitted message s o)) ->
  quiz_in w quizId = Some quiz ->
  role decoded' = "student" ->
  submitWindow clk' quiz = ACTIVE ->
  let w' := snd (run (post_responses clk user classId quizId req_body) w) in
  (student_id req_body' = student_id req_body ->
   run (post_responses clk' (Some decoded') classId' quizId req_body') w'
   = (Some AlreadySubmitted, w')) /\
  (id decoded' = student_id req_body ->
   class_in w classId' = Some myClass ->
   includes (id decoded') (students myClass) = true ->
   run (get_quiz clk' (Some decoded') classId' quizId) w'
   = (Some AlreadySubmitted, w')).
Proof.
  intros Hok Hquiz Hrole Hwin w'. subst w'.
  destruct (post_responses_accepted _ _ _ _ _ _ Hok) as (accepted & _ & ->).
  set (d := mkStudentResponse (student_id req_body) quizId accepted).
  set (r := mkStudentResult _ _ _ _ _).
  assert (attempt_in (add_result (add_response w d) r) (student_id req_body) quizId
          <> None) as Hsome by apply (attempt_in_add_response w d).
  split.
  - intros Hsame. rewrite post_responses_run by assumption.
    change (quiz_in (add_result (add_response w d) r) quizId) with (quiz_in w quizId).
    rewrite Hquiz, Hwin, Hsame.
    destruct (attempt_in _ _ _); [reflexivity | now elim Hsome].
  - intros Hid Hclass Hin.
    rewrite get_quiz_run_student with (myClass := myClass) by assumption.
    change (quiz_in (add_result (add_response w d) r) quizId) with (quiz_in w quizId).
    rewrite Hquiz, viewWindow_submitWindow, Hwin, Hid.
    destruct (attempt_in _ _ _); [reflexivity | now elim Hsome].
Qed.

Lemma second_attempt_rejected_witness :
  fst (run (post_responses Example.during Example.alice Example.class1 Example.quiz1
              (mkSubmitBody Example.alice_id (JArr [Example.answer Example.q2_id [Example.o3; Example.o5]])))
           (snd (run (post_responses Example.during Example.alice Example.class1 Example.quiz1
                        (mkSubmitBody Example.alice_id (JArr [Example.answer Example.q1_id [Example.o1]])))
                     Example.world)))
  = Some AlreadySubmitted.
Proof.
  exact (f_equal fst
           (proj1 (@second_attempt_rejected Example.during Example.alice
                     Example.class1 Example.quiz1
                     (mkSubmitBody Example.alice_id (JArr [Example.answer Example.q1_id [Example.o1]]))
                     Example.world "Student responses stored successfully"
                     1%nat 2%nat Example.quiz Example.during
                     (mkDecoded Example.alice_id "student") Example.class1
                     (mkSubmitBody Example.alice_id (JArr [Example.answer Example.q2_id [Example.o3; Example.o5]]))
                     (mkClass Example.class1 "Math" Example.teacher1 [Example.alice_id; Example.bob_id] [Example.quiz1])
                     eq_refl eq_refl eq_refl eq_refl) eq_refl)).
Defined.

(** X11: the teacher of a class is shown any stored quiz in full, at any
    time and whatever was submitted: the window and the attempts are looked
    at for students only, and the class the quiz belongs to is never compared
    with the class of the request. *)
Theorem teacher_view_not_gated clk decoded classId quizId w myClass quiz :
  role decoded = "teacher" ->
  class_in w classId = Some myClass ->
  teacher_id myClass = id decoded ->
  quiz_in w quizId = Some quiz ->
  run (get_quiz clk (Some decoded) classId quizId) w
  = (Some (mkResponse 200 (QuizDetail quiz)), w).
Proof.
  intros Hrole Hclass Hteacher Hquiz.
  unfold get_quiz, isUser, class_in, quiz_in in *.
  rewrite Hrole. cbn [String.eqb Ascii.eqb Bool.eqb negb orb].
  rewrite run_try_catch. simpl. rewrite Hclass. simpl.
  rewrite Hteacher, String.eqb_refl. simpl. now rewrite Hquiz.
Qed.

Lemma teacher_view_not_gated_witness :
  run (get_quiz Example.late (Some (mkDecoded Example.teacher2 "teacher")) Example.class2 Example.quiz1)
      (mkWorld [mkClass Example.class2 "Physics" Example.teacher2 [] []] [Example.quiz] [] [])
  = (Some (mkResponse 200 (QuizDetail Example.quiz)),
     mkWorld [mkClass Example.class2 "Physics" Example.teacher2 [] []] [Example.quiz] [] []).
Proof.
  exact (@teacher_view_not_gated Example.late (mkDecoded Example.teacher2 "teacher")
           Example.class2 Example.quiz1
           (mkWorld [mkClass Example.class2 "Physics" Example.teacher2 [] []] [Example.quiz] [] [])
           (mkClass Example.class2 "Physics" Example.teacher2 [] []) Example.quiz
           eq_refl eq_refl eq_refl eq_refl).
Defined.

(** X12: the submission route never looks at the classes: with any other
    class in the request and any other collection of classes in the store,
    the answer and the responses and results written are the same.  A student
    who belongs to no class of the quiz can submit to it. *)
Theorem submission_ignores_classes
    clk user classId classId' quizId req_body w classes' :
  let w' := mkWorld classes' (Quizzes w) (StudentResponses w) (StudentResults w) in
  let here := run (post_responses clk user classId quizId req_body) w in
  let there := run (post_responses clk user classId' quizId req_body) w' in
  fst here = fst there /\
  StudentResponses (snd here) = StudentResponses (snd there) /\
  StudentResults (snd here) = StudentResults (snd there) /\
  Classes (snd here) = Classes w /\ Classes (snd there) = classes'.
Proof.
  intros w' here there. subst here there.
  destruct user as [decoded|];
    [|rewrite !post_responses_not_student by discriminate; now repeat split].
  destruct (String.eqb_spec (role decoded) "student") as [Hrole|Hrole].
  - rewrite !post_responses_run by assumption.
    change (quiz_in w' quizId) with (quiz_in w quizId).
    change (attempt_in w' (student_id req_body) quizId)
      with (attempt_in w (student_id req_body) quizId).
    break_matches; now repeat split.
  - rewrite !post_responses_not_student;
      try (intros d Hd; injection Hd as <-; assumption).
    now repeat split.
Qed.

(** X13: the quiz route and the result route only read: whatever the
    request and its answer, the store after is the store before. *)
Theorem view_routes_read_only clk user classId quizId studentId w :
  snd (run (get_quiz clk user classId quizId) w) = w /\
  snd (run (get_result user classId quizId studentId) w) = w.
Proof.
  split.
  - unfold get_quiz. rewrite run_try_catch.
    destruct user as [decoded|]; simpl; [|reflexivity].
    destruct (isUser decoded); simpl; [|reflexivity].
    destruct (find _ (Classes w)) as [myClass|]; simpl; [|reflexivity].
    destruct (_ || _); simpl; [|reflexivity].
    destruct (find _ (Quizzes w)) as [quiz|]; simpl; [|reflexivity].
    destruct (role decoded =? "student")%string; simpl; [|reflexivity].
    destruct (viewWindow clk quiz); simpl; try reflexivity.
    destruct (find _ (StudentResponses w)); reflexivity.
  - unfold get_result. rewrite run_try_catch. simpl.
    destruct (find _ (StudentResults w)); reflexivity.
Qed.




(** ** The authentication middleware *)

Lemma split_space_word word : has_space word = false -> split_space word = [word].
Proof.
  induction word as [|c rest IH]; simpl; [reflexivity|].
  destruct (Ascii.eqb c " "); simpl; [discriminate|].
  intros H. now rewrite IH.
Qed.

Lemma split_space_first word rest :
  has_space word = false ->
  split_space (word ++ String " " rest) = word :: split_space rest.
Proof.
  induction word as [|c word IH]; simpl; [reflexivity|].
  destruct (Ascii.eqb c " "); simpl; [discriminate|].
  intros H. now rewrite IH.
Qed.

(** X15: the token that is verified is the second piece of the header,
    whatever the first piece is and whatever follows the second: the
    middleware does not test that the scheme is Bearer.  A header of one
    piece gives [jwt.verify] no token at all. *)
Theorem token_is_second_piece jwt_verify scheme token rest db :
  has_space scheme = false ->
  has_space token = false ->
  nth_error (split_space (scheme ++ " " ++ token)) 1 = Some token /\
  nth_error (split_space (scheme ++ " " ++ token ++ " " ++ rest)) 1 = Some token /\
  nth_error (split_space token) 1 = None /\
  authenticateToken jwt_verify (Some (scheme ++ " " ++ token)) db
  = authenticateToken jwt_verify (Some ("Bearer " ++ token)) db.
Proof.
  intros Hs Ht.
  assert (nth_error (split_space (scheme ++ " " ++ token)) 1 = Some token) as H1.
  { change (scheme ++ " " ++ token) with (scheme ++ String " " token).
    rewrite split_space_first by assumption.
    now rewrite split_space_word by assumption. }
  split; [exact H1|]. split; [|split].
  - change (scheme ++ " " ++ token ++ " " ++ rest)
      with (scheme ++ String " " (token ++ String " " rest)).
    rewrite split_space_first by assumption.
    now rewrite split_space_first by assumption.
  - now rewrite split_space_word by assumption.
  - assert (nth_error (split_space ("Bearer " ++ token)) 1 = Some token) as H2.
    { change ("Bearer " ++ token) with ("Bearer" ++ String " " token).
      rewrite split_space_first by reflexivity.
      now rewrite split_space_word by assumption. }
    unfold authenticateToken. rewrite H1, H2.
    destruct scheme; reflexivity.
Qed.

Lemma token_is_second_piece_witness :
  nth_error (split_space ("Basic" ++ " " ++ "abc.def.ghi")) 1 = Some "abc.def.ghi".
Proof.
  exact (proj1 (@token_is_second_piece (fun _ => OtherError) "Basic" "abc.def.ghi" ""
                  (mkDatabase [] [] Example.world) eq_refl eq_refl)).
Defined.

(** X16: the middleware calls [next()] exactly when the header is not
    empty, [jwt.verify] returns a payload for its second piece, and the
    payload names a teacher or a student whose account is stored in the
    collection of that role; [req.user] is then that payload. *)
Theorem next_only_for_stored_account jwt_verify authorization db decoded :
  authenticateToken jwt_verify authorization db = inr decoded <->
  exists header,
    authorization = Some header /\ header <> "" /\
    jwt_verify (nth_error (split_space header) 1) = Payload decoded /\
    ((role decoded = "teacher" /\ teacher_in db (id decoded) <> None) \/
     (role decoded = "student" /\ student_in db (id decoded) <> None)).
Proof.
  unfold authenticateToken. split.
  - destruct authorization as [header|]; [|discriminate].
    destruct (String.eqb_spec header "") as [|Hne]; [discriminate|].
    destruct (jwt_verify _) as [d| |] eqn:V; try discriminate.
    destruct (String.eqb_spec (role d) "teacher") as [Ht|Ht].
    + destruct (teacher_in db (id d)) eqn:T; simpl; [|discriminate].
      intros H; injection H as <-. exists header. repeat split; try assumption.
      left; split; [assumption|]. congruence.
    + destruct (String.eqb_spec (role d) "student") as [Hs|Hs]; [|discriminate].
      destruct (student_in db (id d)) eqn:S; simpl; [|discriminate].
      intros H; injection H as <-. exists header. repeat split; try assumption.
      right; split; [assumption|]. congruence.
  - intros (header & -> & Hne & V & Hacc).
    apply String.eqb_neq in Hne. rewrite Hne, V.
    destruct Hacc as [[Hr Hin]|[Hr Hin]]; rewrite Hr; simpl.
    + destruct (teacher_in db (id decoded)); [reflexivity | now elim Hin].
    + destruct (student_in db (id decoded)); [reflexivity | now elim Hin].
Qed.

Lemma isUser_authenticated jwt_verify authorization db decoded :
  authenticateToken jwt_verify authorization db = inr decoded ->
  isUser decoded = true.
Proof.
  unfold authenticateToken, isUser.
  destruct authorization as [header|]; [|discriminate].
  destruct (header =? "")%string; [discriminate|].
  destruct (jwt_verify _) as [d| |]; try discriminate.
  destruct (role d =? "teacher")%string eqn:Ht;
    destruct (role d =? "student")%string eqn:Hs; simpl;
    break_matches; intros H; try discriminate H;
    injection H as <-; now rewrite ?Ht, ?Hs.
Qed.

(** X17: behind the middleware the quiz route never answers with its own
    "only authenticated users" 403: every request that reaches it carries a
    teacher or a student. *)
Theorem only_users_unreachable jwt_verify authorization clk classId quizId db :
  fst (behind_auth jwt_verify authorization
         (fun user => get_quiz clk user classId quizId) db)
  <> Some OnlyUsers.
Proof.
  unfold behind_auth.
  destruct (authenticateToken jwt_verify authorization db) as [answer|decoded] eqn:A.
  - simpl. unfold authenticateToken in A.
    destruct authorization as [header|]; [|injection A as <-; discriminate].
    destruct (header =? "")%string; [injection A as <-; discriminate|].
    destruct (jwt_verify _) as [d| |]; try (injection A as <-; discriminate).
    destruct (negb _); [injection A as <-; discriminate | discriminate].
  - apply isUser_authenticated in A.
    unfold get_quiz. rewrite run_try_catch. simpl. rewrite A. simpl.
    destruct (find _ (Classes (store db))) as [myClass|]; simpl; [|discriminate].
    destruct (_ || _); simpl; [|discriminate].
    destruct (find _ (Quizzes (store db))) as [quiz|]; simpl; [|discriminate].
    destruct (role decoded =? "student")%string; simpl; [|discriminate].
    destruct (viewWindow clk quiz); simpl; try discriminate.
    destruct (find _ (StudentResponses (store db))); discriminate.
Qed.


Lemma next_only_for_stored_account_witness :
  authenticateToken (fun _ => Payload (mkDecoded Example.alice_id "student"))
    (Some "Bearer t")
    (mkDatabase [] [mkStudent Example.alice_id "al" "hash" "Alice" "a@b.cd"] Example.world)
  = inr (mkDecoded Example.alice_id "student").
Proof.
  apply (proj2 (@next_only_for_stored_account
                  (fun _ => Payload (mkDecoded Example.alice_id "student"))
                  (Some "Bearer t")
                  (mkDatabase [] [mkStudent Example.alice_id "al" "hash" "Alice" "a@b.cd"]
                              Example.world)
                  (mkDecoded Example.alice_id "student"))).
  exists "Bearer t". repeat split; try discriminate.
  right; split; [reflexivity | discriminate].
Defined.


(** ** The roster *)

Lemma class_in_id w classId c : class_in w classId = Some c -> class_id_ c = classId.
Proof.
  unfold class_in. intros H. apply find_some in H as [_ H].
  now apply String.eqb_eq in H.
Qed.

Lemma student_in_id db i s : student_in db i = Some s -> student_id_ s = i.
Proof.
  unfold student_in. intros H. apply find_some in H as [_ H].
  now apply String.eqb_eq in H.
Qed.

(** A class that was found and saved is found again, as saved. *)
Lemma class_in_save w classId c0 c1 :
  class_in w classId = Some c0 ->
  class_id_ c1 = classId ->
  class_in (with_classes w (save_class c1 (Classes w))) classId = Some c1.
Proof.
  unfold class_in, with_classes; simpl. intros Hfind Hid. subst classId.
  induction (Classes w) as [|c' l IH]; simpl in *; [discriminate|].
  destruct (class_id_ c' =? class_id_ c1)%string eqn:E; simpl.
  - now rewrite String.eqb_refl.
  - rewrite E. now apply IH.
Qed.

Lemma class_in_save_students w classId c0 l :
  class_in w classId = Some c0 ->
  class_in (with_classes w (save_class (with_students c0 l) (Classes w))) classId
  = Some (with_students c0 l).
Proof.
  intros H. apply class_in_save with (c0 := c0); [assumption|].
  simpl. now apply class_in_id with (w := w).
Qed.

Lemma includes_In x l : includes x l = true <-> In x l.
Proof.
  unfold includes. rewrite existsb_exists. split.
  - intros (y & Hin & Hy). apply String.eqb_eq in Hy. now subst.
  - intros Hin. exists x; split; [assumption | apply String.eqb_refl].
Qed.

Lemma includes_last x l : includes x (l ++ [x]) = true.
Proof. apply includes_In, in_or_app. right; now left. Qed.

(** X19: joining is idempotent: a second join of the same student to the
    same class changes nothing, and after a join that added the student it
    answers "already in the class". *)
Theorem join_idempotent user classId db :
  snd (join user classId (snd (join user classId db))) = snd (join user classId db) /\
  (fst (join user classId db) = reply_message "Student joined the class successfully" ->
   fst (join user classId (snd (join user classId db)))
   = reply_message "Student already in the class").
Proof.
  unfold join. destruct user as [decoded|]; [|split; [reflexivity | discriminate]].
  destruct (role decoded =? "student")%string eqn:R; simpl;
    [|rewrite ?R; split; [reflexivity | discriminate]].
  destruct (class_in (store db) classId) as [c0|] eqn:C; simpl;
    [|rewrite ?R, ?C; split; [reflexivity | discriminate]].
  destruct (student_in db (id decoded)) as [st|] eqn:S; simpl;
    [|rewrite ?R, ?C, ?S; split; [reflexivity | discriminate]].
  destruct (includes (student_id_ st) (students c0)) eqn:I; simpl.
  - rewrite ?R, ?C, ?S; simpl. rewrite ?I. simpl.
    split; [reflexivity | unfold reply_message; discriminate].
  - set (c1 := with_students c0 (students c0 ++ [student_id_ st])).
    assert (class_in (with_classes (store db) (save_class c1 (Classes (store db))))
              classId = Some c1) as C1
      by now apply class_in_save_students.
    rewrite ?R; simpl. rewrite C1.
    change (student_in (with_store db _) (id decoded)) with (student_in db (id decoded)).
    rewrite S. simpl. rewrite includes_last. simpl. split; reflexivity.
Qed.

(** X20: a join adds the caller and nobody else, at most once: a roster
    without duplicates stays without, the caller is on it afterwards, every
    other entry was there before, and the class keeps its teacher. *)
Theorem join_adds_caller_once decoded classId db c0 st :
  role decoded = "student" ->
  class_in (store db) classId = Some c0 ->
  student_in db (id decoded) = Some st ->
  NoDup (students c0) ->
  exists c1,
    class_in (store (snd (join (Some decoded) classId db))) classId = Some c1 /\
    NoDup (students c1) /\
    In (id decoded) (students c1) /\
    (forall x, In x (students c1) -> In x (students c0) \/ x = id decoded) /\
    teacher_id c1 = teacher_id c0.
Proof.
  intros Hrole C S Hnd. pose proof (student_in_id _ _ S) as Hid.
  unfold join. rewrite Hrole, C, S. cbn [String.eqb Ascii.eqb Bool.eqb negb].
  rewrite Hid.
  destruct (includes (id decoded) (students c0)) eqn:I; simpl.
  - exists c0. rewrite C. repeat split; auto. now apply includes_In.
  - exists (with_students c0 (students c0 ++ [id decoded])). split.
    + now apply class_in_save_students.
    + simpl. repeat split.
      * apply Permutation_NoDup with (l := id decoded :: students c0);
          [apply Permutation_cons_append|].
        constructor; [|assumption]. intros Hin. apply includes_In in Hin. congruence.
      * apply in_or_app; right; now left.
      * intros x Hx. apply in_app_or in Hx as [Hx|[<-|[]]]; auto.
Qed.

Lemma join_adds_caller_once_witness :
  exists c1,
    class_in (store (snd (join (Some (mkDecoded Example.carol_id "student")) Example.class1
                            (mkDatabase []
                               [mkStudent Example.carol_id "ca" "hash" "Carol" "c@d.ef"]
                               Example.world)))) Example.class1 = Some c1 /\
    students c1 = [Example.alice_id; Example.bob_id; Example.carol_id].
Proof.
  destruct (@join_adds_caller_once (mkDecoded Example.carol_id "student") Example.class1
              (mkDatabase [] [mkStudent Example.carol_id "ca" "hash" "Carol" "c@d.ef"]
                          Example.world)
              (mkClass Example.class1 "Math" Example.teacher1 [Example.alice_id; Example.bob_id] [Example.quiz1])
              (mkStudent Example.carol_id "ca" "hash" "Carol" "c@d.ef")
              eq_refl eq_refl eq_refl)
    as (c1 & Hc1 & _).
  - repeat constructor; simpl; intuition discriminate.
  - exists c1. split; [exact Hc1|].
    vm_compute in Hc1. now injection Hc1 as <-.
Defined.

(** X21: [add-student] does not look at the roster: the student is
    appended also when already on it, and the roster then holds the student
    twice. *)
Theorem add_student_appends decoded classId studentId db c0 st :
  role decoded = "teacher" ->
  class_in (store db) classId = Some c0 ->
  teacher_id c0 = id decoded ->
  student_in db studentId = Some st ->
  let after := add_student (Some decoded) classId studentId db in
  fst after = reply_message "Student added to the class successfully" /\
  class_in (store (snd after)) classId
  = Some (with_students c0 (students c0 ++ [studentId])) /\
  (In studentId (students c0) ->
   ~ NoDup (students c0 ++ [studentId]) /\
   count_occ string_dec (students c0 ++ [studentId]) studentId
   = S (count_occ string_dec (students c0) studentId)).
Proof.
  intros Hrole C Ht Hst after. subst after.
  pose proof (student_in_id _ _ Hst) as Hid.
  unfold add_student. rewrite Hrole, C, Ht, Hst, Hid.
  cbn [String.eqb Ascii.eqb Bool.eqb negb]. rewrite String.eqb_refl.
  cbn [negb fst snd].
  split; [reflexivity|]. split.
  - now apply class_in_save_students.
  - intros Hin. split.
    + intros Hnd.
      apply (Permutation_NoDup
               (Permutation_sym (Permutation_cons_append (students c0) studentId)))
        in Hnd.
      apply NoDup_cons_iff in Hnd as [Hnot _]. now apply Hnot.
    + rewrite count_occ_app. simpl.
      destruct (string_dec studentId studentId); simpl;
        [rewrite Nat.add_1_r; reflexivity | congruence].
Qed.

Lemma add_student_appends_witness :
  class_in
    (store (snd (add_student (Some (mkDecoded Example.teacher1 "teacher")) Example.class1 Example.alice_id
                   (mkDatabase [] [mkStudent Example.alice_id "al" "hash" "Alice" "a@b.cd"]
                               Example.world)))) Example.class1
  = Some (mkClass Example.class1 "Math" Example.teacher1 [Example.alice_id; Example.bob_id; Example.alice_id] [Example.quiz1]).
Proof.
  exact (proj1 (proj2 (@add_student_appends (mkDecoded Example.teacher1 "teacher")
                         Example.class1 Example.alice_id
                         (mkDatabase []
                            [mkStudent Example.alice_id "al" "hash" "Alice" "a@b.cd"]
                            Example.world)
                         (mkClass Example.class1 "Math" Example.teacher1 [Example.alice_id; Example.bob_id] [Example.quiz1])
                         (mkStudent Example.alice_id "al" "hash" "Alice" "a@b.cd")
                         eq_refl eq_refl eq_refl eq_refl))).
Defined.

Lemma indexOf_includes x l :
  includes x l = false <-> indexOf x l = None.
Proof.
  unfold includes. induction l as [|y l IH]; simpl; [tauto|].
  destruct (y =? x)%string; simpl; [split; discriminate|].
  rewrite IH. destruct (indexOf x l); split; congruence.
Qed.

Lemma count_occ_splice x l : forall i,
  indexOf x l = Some i ->
  forall y, count_occ string_dec l y
            = (count_occ string_dec (splice_one i l) y
               + if string_dec x y then 1 else 0)%nat.
Proof.
  induction l as [|z l IH]; simpl; intros i Hi y; [discriminate|].
  destruct (String.eqb_spec z x) as [->|Hzx].
  - injection Hi as <-. simpl. destruct (string_dec x y); lia.
  - destruct (indexOf x l) as [i'|] eqn:E; [|discriminate].
    injection Hi as <-. simpl. specialize (IH i' eq_refl y).
    destruct (string_dec z y), (string_dec x y); subst; try congruence; lia.
Qed.

(** X22: [remove-student] answers 404 exactly when the student is not on
    the roster, and otherwise takes one entry of the student off it, the
    first, and leaves every other entry: a student who was added twice is
    still on the roster after one removal. *)
Theorem remove_student_removes_one decoded classId studentId w c0 :
  role decoded = "teacher" ->
  class_in w classId = Some c0 ->
  teacher_id c0 = id decoded ->
  let after := remove_student (Some decoded) classId studentId w in
  (includes studentId (students c0) = false ->
   after = (reply_error 404 "Student not found in the class", w)) /\
  (includes studentId (students c0) = true ->
   exists c1,
     fst after = reply_message "Student removed from the class successfully" /\
     class_in (snd after) classId = Some c1 /\
     forall x, count_occ string_dec (students c0) x
               = (count_occ string_dec (students c1) x
                  + if string_dec studentId x then 1 else 0)%nat).
Proof.
  intros Hrole C Ht after. subst after.
  unfold remove_student. rewrite Hrole, C, Ht.
  cbn [String.eqb Ascii.eqb Bool.eqb negb]. rewrite String.eqb_refl.
  cbn [negb].
  split.
  - intros H. apply indexOf_includes in H. now rewrite H.
  - intros H. destruct (indexOf studentId (students c0)) as [i|] eqn:E.
    + exists (with_students c0 (splice_one i (students c0))).
      split; [reflexivity|]. split.
      * now apply class_in_save_students.
      * intros x. simpl. now apply count_occ_splice.
    + apply indexOf_includes in E. congruence.
Qed.

Lemma remove_student_removes_one_witness :
  exists c1,
    class_in (snd (remove_student (Some (mkDecoded Example.teacher1 "teacher")) Example.class1
                     Example.alice_id
                     (mkWorld [mkClass Example.class1 "Math" Example.teacher1
                                 [Example.alice_id; Example.bob_id; Example.alice_id] [Example.quiz1]] [] [] [])))
             Example.class1 = Some c1 /\
    students c1 = [Example.bob_id; Example.alice_id].
Proof.
  destruct (proj2 (@remove_student_removes_one (mkDecoded Example.teacher1 "teacher")
                     Example.class1 Example.alice_id
                     (mkWorld [mkClass Example.class1 "Math" Example.teacher1
                                 [Example.alice_id; Example.bob_id; Example.alice_id] [Example.quiz1]] [] [] [])
                     (mkClass Example.class1 "Math" Example.teacher1
                        [Example.alice_id; Example.bob_id; Example.alice_id] [Example.quiz1])
                     eq_refl eq_refl eq_refl) eq_refl)
    as (c1 & _ & Hc1 & _).
  exists c1. split; [exact Hc1|].
  vm_compute in Hc1. now injection Hc1 as <-.
Defined.

(** X23: a join needs nothing but the id of the class: a student who is
    not on the roster joins and is from then on shown any stored quiz that is
    inside its window, of whatever class, correct flags included. *)
Theorem join_opens_the_quizzes decoded classId quizId db c0 st quiz clk :
  role decoded = "student" ->
  class_in (store db) classId = Some c0 ->
  student_in db (id decoded) = Some st ->
  quiz_in (store db) quizId = Some quiz ->
  viewWindow clk quiz = ACTIVE ->
  attempt_in (store db) (id decoded) quizId = None ->
  let w' := store (snd (join (Some decoded) classId db)) in
  run (get_quiz clk (Some decoded) classId quizId) w'
  = (Some (mkResponse 200 (QuizDetail quiz)), w').
Proof.
  intros Hrole C S Hquiz Hwin Hnone w'. subst w'.
  pose proof (student_in_id _ _ S) as Hid.
  unfold join. rewrite Hrole, C, S. cbn [String.eqb Ascii.eqb Bool.eqb negb].
  rewrite Hid.
  destruct (includes (id decoded) (students c0)) eqn:I; simpl.
  - rewrite get_quiz_run_student with (myClass := c0) by assumption.
    now rewrite Hquiz, Hwin, Hnone.
  - rewrite get_quiz_run_student
      with (myClass := with_students c0 (students c0 ++ [id decoded]));
      [| assumption
       | now apply class_in_save_students
       | apply includes_last].
    change (quiz_in (with_classes (store db) _) quizId)
      with (quiz_in (store db) quizId).
    change (attempt_in (with_classes (store db) _) (id decoded) quizId)
      with (attempt_in (store db) (id decoded) quizId).
    now rewrite Hquiz, Hwin, Hnone.
Qed.

Lemma join_opens_the_quizzes_witness :
  fst (run (get_quiz Example.during (Some (mkDecoded Example.carol_id "student"))
              Example.class2 Example.quiz1)
           (store (snd (join (Some (mkDecoded Example.carol_id "student")) Example.class2
                          (mkDatabase []
                             [mkStudent Example.carol_id "ca" "hash" "Carol" "c@d.ef"]
                             (mkWorld [mkClass Example.class2 "Physics" Example.teacher2 [] []]
                                      [Example.quiz] [] []))))))
  = Some (mkResponse 200 (QuizDetail Example.quiz)).
Proof.
  exact (f_equal fst
           (@join_opens_the_quizzes (mkDecoded Example.carol_id "student") Example.class2 Example.quiz1
              (mkDatabase [] [mkStudent Example.carol_id "ca" "hash" "Carol" "c@d.ef"]
                 (mkWorld [mkClass Example.class2 "Physics" Example.teacher2 [] []]
                          [Example.quiz] [] []))
              (mkClass Example.class2 "Physics" Example.teacher2 [] [])
              (mkStudent Example.carol_id "ca" "hash" "Carol" "c@d.ef")
              Example.quiz Example.during
              eq_refl eq_refl eq_refl eq_refl eq_refl eq_refl)).
Defined.

(** ** The listings and the deletion of a class *)

Lemma formatted_quizzes_no_key k l :
  (k =? "quiz_name")%string = false -> (k =? "quiz_id")%string = false ->
  (k =? "start_date")%string = false -> (k =? "duration")%string = false ->
  existsb (has_key k) (map formatted_quiz l) = false.
Proof.
  intros H1 H2 H3 H4. induction l as [|q l IH]; [reflexivity|].
  cbn [map existsb]. rewrite IH. unfold formatted_quiz. cbn [has_key existsb].
  rewrite (String.eqb_sym "quiz_name"), (String.eqb_sym "quiz_id"),
    (String.eqb_sym "start_date"), (String.eqb_sym "duration").
  now rewrite H1, H2, H3, H4.
Qed.

(** X24: the list of the quizzes of a class never carries the questions,
    the options or the correct flags, whoever asks and whatever the answer:
    for each quiz it holds the name, the id, the start and the duration. *)
Theorem quiz_list_hides_questions user classId w :
  has_key "is_correct" (reply_body (list_quizzes user classId w)) = false /\
  has_key "questions" (reply_body (list_quizzes user classId w)) = false /\
  has_key "options" (reply_body (list_quizzes user classId w)) = false.
Proof.
  unfold list_quizzes.
  destruct user as [decoded|]; [|now repeat split].
  destruct (isUser decoded); simpl; [|now repeat split].
  destruct (class_in w classId) as [myClass|]; [|now repeat split].
  destruct (_ || _); simpl; [|now repeat split].
  rewrite !formatted_quizzes_no_key by reflexivity. now repeat split.
Qed.

(** The quizzes a member is listed are those of the class, and as many. *)
Lemma list_quizzes_member decoded classId w myClass :
  isUser decoded = true ->
  class_in w classId = Some myClass ->
  includes (id decoded) (students myClass) = true ->
  list_quizzes (Some decoded) classId w
  = mkReply 200
      (JObj [("quizzes",
              JArr (map formatted_quiz
                      (filter (fun q => (class_id q =? classId)%string) (Quizzes w))))]).
Proof.
  intros Hu Hc Hin. unfold list_quizzes. rewrite Hu, Hc, Hin, orb_true_r.
  reflexivity.
Qed.

Lemma class_in_absent w classId :
  ~ In classId (map class_id_ (Classes w)) -> class_in w classId = None.
Proof.
  unfold class_in. intros Hnot.
  destruct (find _ (Classes w)) as [c|] eqn:F; [|reflexivity].
  apply find_some in F as [Hin Hc]. apply String.eqb_eq in Hc.
  elim Hnot. rewrite <- Hc. now apply in_map.
Qed.

Lemma class_in_deleted w classId :
  NoDup (map class_id_ (Classes w)) ->
  class_in (with_classes w (delete_class_doc classId (Classes w))) classId = None.
Proof.
  unfold class_in, with_classes; simpl.
  induction (Classes w) as [|c l IH]; simpl; intros Hnd; [reflexivity|].
  apply NoDup_cons_iff in Hnd as [Hnot Hnd].
  destruct (String.eqb_spec (class_id_ c) classId) as [E|E]; simpl.
  - subst classId.
    apply (@class_in_absent (mkWorld l [] [] []) (class_id_ c) Hnot).
  - apply String.eqb_neq in E. rewrite E. now apply IH.
Qed.

(** The answer of the submission route does not depend on the classes. *)
Lemma post_responses_with_classes clk user classId quizId req_body w l :
  fst (run (post_responses clk user classId quizId req_body) (with_classes w l))
  = fst (run (post_responses clk user classId quizId req_body) w).
Proof.
  destruct user as [decoded|];
    [|now rewrite !post_responses_not_student by discriminate].
  destruct (String.eqb_spec (role decoded) "student") as [Hrole|Hrole].
  - rewrite !post_responses_run by assumption.
    change (quiz_in (with_classes w l) quizId) with (quiz_in w quizId).
    change (attempt_in (with_classes w l) (student_id req_body) quizId)
      with (attempt_in w (student_id req_body) quizId).
    break_matches; reflexivity.
  - rewrite !post_responses_not_student;
      try (intros d Hd; injection Hd as <-; assumption).
    reflexivity.
Qed.

(** X25: deleting a class deletes the class document and nothing else: its
    quizzes, the responses and the results stay in the store, the result
    route still answers for them and the submission route still takes
    submissions to them, while the quiz route no longer finds the class. *)
Theorem deleted_class_keeps_its_quizzes
    decoded classId w c0 clk user classId' quizId req_body studentId :
  role decoded = "teacher" ->
  class_in w classId = Some c0 ->
  teacher_id c0 = id decoded ->
  NoDup (map class_id_ (Classes w)) ->
  let after := delete_class (Some decoded) classId w in
  fst after = reply_message "Class deleted successfully" /\
  Quizzes (snd after) = Quizzes w /\
  StudentResponses (snd after) = StudentResponses w /\
  StudentResults (snd after) = StudentResults w /\
  fst (run (get_quiz clk user classId quizId) (snd after))
  = Some (match user with
          | None => OnlyUsers
          | Some d => if isUser d then ClassNotFound else OnlyUsers
          end) /\
  fst (run (post_responses clk user classId' quizId req_body) (snd after))
  = fst (run (post_responses clk user classId' quizId req_body) w) /\
  fst (run (get_result user classId' quizId studentId) (snd after))
  = fst (run (get_result user classId' quizId studentId) w).
Proof.
  intros Hrole C Ht Hnd after. subst after.
  pose proof (class_in_id _ _ C) as Hid.
  unfold delete_class. rewrite Hrole, C, Ht, Hid.
  cbn [String.eqb Ascii.eqb Bool.eqb negb]. rewrite String.eqb_refl.
  cbn [negb fst snd].
  repeat (split; [reflexivity|]).
  split; [|split].
  - unfold get_quiz. rewrite run_try_catch.
    destruct user as [d|]; [|reflexivity]. simpl.
    destruct (isUser d); simpl; [|reflexivity].
    pose proof (class_in_deleted w classId Hnd) as Hgone.
    unfold class_in, with_classes in Hgone; simpl in Hgone. now rewrite Hgone.
  - apply post_responses_with_classes.
  - unfold get_result. rewrite !run_try_catch. simpl.
    destruct (find _ (StudentResults w)); reflexivity.
Qed.

Lemma deleted_class_keeps_its_quizzes_witness :
  fst (run (post_responses Example.during Example.alice Example.class1 Example.quiz1
              (mkSubmitBody Example.alice_id (JArr [Example.answer Example.q1_id [Example.o1]])))
           (snd (delete_class (Some (mkDecoded Example.teacher1 "teacher")) Example.class1
                   Example.world)))
  = fst (run (post_responses Example.during Example.alice Example.class1 Example.quiz1
                (mkSubmitBody Example.alice_id (JArr [Example.answer Example.q1_id [Example.o1]])))
             Example.world).
Proof.
  refine (proj1 (proj2 (proj2 (proj2 (proj2 (proj2
            (@deleted_class_keeps_its_quizzes (mkDecoded Example.teacher1 "teacher")
               Example.class1 Example.world
               (mkClass Example.class1 "Math" Example.teacher1 [Example.alice_id; Example.bob_id] [Example.quiz1])
               Example.during Example.alice Example.class1 Example.quiz1
               (mkSubmitBody Example.alice_id (JArr [Example.answer Example.q1_id [Example.o1]])) Example.alice_id
               eq_refl eq_refl eq_refl _))))))).
  repeat constructor. simpl. tauto.
Defined.




Lemma student_cards_some db roster : forall cards,
  student_cards db roster = Some cards ->
  List.length cards = List.length roster /\
  existsb (has_key "password") cards = false.
Proof.
  induction roster as [|i rest IH]; simpl; intros cards H.
  - injection H as <-. now split.
  - destruct (student_in db i) as [st|]; [|discriminate].
    destruct (student_cards db rest) as [cards'|]; [|discriminate].
    injection H as <-. destruct (IH cards' eq_refl) as [Hlen Hkey].
    split; [simpl; now rewrite Hlen|].
    cbn [existsb]. now rewrite Hkey.
Qed.

Lemma student_cards_all db roster :
  Forall (fun i => student_in db i <> None) roster ->
  exists cards, student_cards db roster = Some cards.
Proof.
  induction roster as [|i rest IH]; simpl; intros Hall; [now exists []|].
  inversion Hall as [|? ? Hi Hrest]; subst.
  destruct (IH Hrest) as (cards & ->).
  destruct (student_in db i) as [st|]; [eauto | now elim Hi].
Qed.

Lemma student_cards_gone db roster :
  Exists (fun i => student_in db i = None) roster ->
  student_cards db roster = None.
Proof.
  induction roster as [|i rest IH]; simpl; intros Hex; inversion Hex; subst.
  - now match goal with H : student_in db i = None |- _ => rewrite H end.
  - rewrite IH by assumption. now destruct (student_in db i).
Qed.

(** X27: the list of the students of a class, with names, user names and
    e-mail addresses, goes to any teacher and any student, of the class or
    not: the route never tests membership.  It lists one entry per entry of
    the roster and no password; and when one student of the roster is gone
    from the store the whole request ends with a 500. *)
Theorem student_list_open_to_all caller other classId db myClass :
  isUser caller = true ->
  isUser other = true ->
  class_in (store db) classId = Some myClass ->
  list_students (Some caller) classId db = list_students (Some other) classId db /\
  has_key "password" (reply_body (list_students (Some caller) classId db)) = false /\
  (Forall (fun i => student_in db i <> None) (students myClass) ->
   exists cards,
     list_students (Some caller) classId db
     = mkReply 200 (JObj [("students", JArr cards)]) /\
     List.length cards = List.length (students myClass)) /\
  (Exists (fun i => student_in db i = None) (students myClass) ->
   list_students (Some caller) classId db
   = reply_error 500 "Internal Server Error").
Proof.
  intros Hc Ho Hclass. unfold list_students. rewrite Hc, Ho, Hclass. simpl.
  split; [reflexivity|]. split; [|split].
  - destruct (student_cards db (students myClass)) as [cards|] eqn:E;
      [|reflexivity].
    destruct (@student_cards_some db _ _ E) as [_ Hkey].
    cbn [reply_body has_key existsb String.eqb Ascii.eqb Bool.eqb orb].
    now rewrite Hkey.
  - intros Hall. destruct (@student_cards_all db _ Hall) as (cards & E).
    rewrite E. exists cards. split; [reflexivity|].
    now destruct (@student_cards_some db _ _ E).
  - intros Hex. now rewrite (@student_cards_gone db _ Hex).
Qed.

Lemma student_list_open_to_all_witness :
  list_students (Some (mkDecoded Example.mallory_id "student")) Example.class1
    (mkDatabase [] [mkStudent Example.alice_id "al" "hash" "Alice" "a@b.cd"]
       (mkWorld [mkClass Example.class1 "Math" Example.teacher1 [Example.alice_id] []] [] [] []))
  = list_students (Some (mkDecoded Example.teacher1 "teacher")) Example.class1
      (mkDatabase [] [mkStudent Example.alice_id "al" "hash" "Alice" "a@b.cd"]
         (mkWorld [mkClass Example.class1 "Math" Example.teacher1 [Example.alice_id] []] [] [] [])).
Proof.
  exact (proj1 (@student_list_open_to_all (mkDecoded Example.mallory_id "student")
                  (mkDecoded Example.teacher1 "teacher") Example.class1
                  (mkDatabase [] [mkStudent Example.alice_id "al" "hash" "Alice" "a@b.cd"]
                     (mkWorld [mkClass Example.class1 "Math" Example.teacher1 [Example.alice_id] []]
                              [] [] []))
                  (mkClass Example.class1 "Math" Example.teacher1 [Example.alice_id] [])
                  eq_refl eq_refl eq_refl)).
Defined.
